(** * botq: the WhatsApp verification bot of [src/index.js]

    A shallow embedding of the message handlers of [src/index.js] and the
    properties of the verification state machine they implement.

    Conventions of the model.
    - A JavaScript string is a Rocq [string]; every character stands for one
      UTF-16 code unit below 256 (the Latin-1 range), which is where
      [trim], [toLowerCase] and the regular expression [\d] are modelled.
    - A JavaScript number is an integer of [Z] (the program only handles
      timestamps, error codes and the six-digit code).
    - The three global [Map]s are finite maps keyed by strings.
    - An [async] handler is a tree of effects ([Prog]): reads and writes of
      the stores, [Date.now()], [crypto.randomInt], [client.sendText] and
      the awaited [axios] requests.  A rejected request, and a payload whose
      shape makes a property access raise a [TypeError], are both an
      exception raised at the [await].  The tree is interpreted twice: run
      to completion for one message ([run]), and on the event loop, where
      a handler is suspended at each [await] and other messages are
      handled meanwhile ([loop_step]). *)

From Stdlib Require Import ZArith Lia Ascii String.
From stdpp Require Import gmap strings list fin_maps.

Local Open Scope string_scope.
Local Open Scope Z_scope.

(** ** JavaScript primitives used by the handlers *)

Module Js.

(** A value where the program does not know the type: what the backend
    puts in [error_code] and [ticket_id], and what [Map.get] returns. *)
Inductive value : Type :=
| Undefined
| Num (n : Z)
| Str (s : string).

(** [if (v)]: [undefined], [0] and the empty string are falsy. *)
Definition truthy (v : value) : bool :=
  match v with
  | Undefined => false
  | Num n => negb (n =? 0)
  | Str s => negb (String.eqb s "")
  end.

(** [v !== 0]. *)
Definition strict_neq_zero (v : value) : bool :=
  match v with
  | Num n => negb (n =? 0)
  | _ => true
  end.

Definition code_of (c : ascii) : N := N_of_ascii c.

(** White space of [String.prototype.trim] among the code units below
    256: TAB, LF, VT, FF, CR, SPACE and NBSP. *)
Definition is_space (c : ascii) : bool :=
  let n := code_of c in
  ((9 <=? n) && (n <=? 13) || (n =? 32) || (n =? 160))%N.

(** The class [\d] of a regular expression: [0-9]. *)
Definition is_digit (c : ascii) : bool :=
  let n := code_of c in ((48 <=? n) && (n <=? 57))%N.

Fixpoint trimStart (s : string) : string :=
  match s with
  | String c r => if is_space c then trimStart r else s
  | EmptyString => EmptyString
  end.

Fixpoint trimEnd (s : string) : string :=
  match s with
  | EmptyString => EmptyString
  | String c r =>
      match trimEnd r with
      | EmptyString => if is_space c then EmptyString else String c EmptyString
      | r' => String c r'
      end
  end.

Definition trim (s : string) : string := trimEnd (trimStart s).

(** First and last code unit, if any. *)
Definition first (s : string) : option ascii :=
  match s with
  | EmptyString => None
  | String c _ => Some c
  end.

Fixpoint last (s : string) : option ascii :=
  match s with
  | EmptyString => None
  | String c EmptyString => Some c
  | String _ r => last r
  end.

Fixpoint all_space (s : string) : bool :=
  match s with
  | EmptyString => true
  | String c r => is_space c && all_space r
  end.

Fixpoint all_digits (s : string) : bool :=
  match s with
  | EmptyString => true
  | String c r => is_digit c && all_digits r
  end.

(** [/^\d+$/.test(s)]: one digit or more and nothing else. *)
Definition test_digits (s : string) : bool :=
  match s with
  | EmptyString => false
  | String _ _ => all_digits s
  end.

(** [toLowerCase] on one code unit below 256: A-Z and the Latin-1 capitals
    (192-222 except the multiplication sign 215) move up by 32. *)
Definition lower_char (c : ascii) : ascii :=
  let n := code_of c in
  if ((65 <=? n) && (n <=? 90)
      || (192 <=? n) && (n <=? 222) && negb (n =? 215))%N
  then ascii_of_N (n + 32) else c.

Fixpoint toLowerCase (s : string) : string :=
  match s with
  | EmptyString => EmptyString
  | String c r => String (lower_char c) (toLowerCase r)
  end.

(** [s.startsWith(p)]. *)
Definition startsWith (s p : string) : bool := String.prefix p s.

(** [s.split(' ')]: the pieces between single spaces, empty pieces kept;
    the empty string splits into one empty piece. *)
Fixpoint split_space (s : string) : list string :=
  match s with
  | EmptyString => [EmptyString]
  | String c r =>
      if Ascii.eqb c " "%char then EmptyString :: split_space r
      else match split_space r with
           | h :: t => String c h :: t
           | [] => [String c EmptyString]
           end
  end.

Definition digit_char (d : Z) : ascii := ascii_of_N (48 + Z.to_N d).

Fixpoint digits_onto (fuel : nat) (n : Z) (acc : string) : string :=
  let acc' := String (digit_char (n mod 10)) acc in
  match fuel with
  | O => acc'
  | S f => if n <? 10 then acc' else digits_onto f (n / 10) acc'
  end.

(** [n.toString()] for an integer: decimal digits, most significant
    first, with a minus sign below zero.  A number has no more decimal
    digits than bits, which bounds the recursion. *)
Definition Number_toString (n : Z) : string :=
  if n <? 0
  then String "-"%char (digits_onto (Z.to_nat (Z.log2 (- n))) (- n) EmptyString)
  else digits_onto (Z.to_nat (Z.log2 n)) n EmptyString.

(** [crypto.randomInt(min, max)]: Node's documentation gives an integer
    [n] with [min <= n < max]; [draw] is the entropy consumed, and every
    value of the interval is the image of some draw. *)
Definition randomInt (min max : Z) (draw : Z) : Z :=
  min + draw mod (max - min).

End Js.

(** ** Data model *)

(** An entry of the listing of [GET /users]. *)
Module User.
Record t : Type := { username : string; email : string }.
End User.

(** A value of [verificationCodes]: [{code, username, timestamp}]. *)
Module Pending.
Record t : Type := { code : string; username : string; timestamp : Z }.
End Pending.

(** The [data] of [GET /orders/{id}]. *)
Module Order.
Record t : Type :=
  { id : Js.value; service_name : Js.value; status : Js.value;
    quantity : Js.value; remains : Js.value; created : Js.value;
    link : Js.value }.
End Order.

(** The data stores: the three global [Map]s. *)
Record Stores : Type :=
  { verificationCodes : gmap string Pending.t; (* phone -> {code, username, timestamp} *)
    verifiedUsers : gmap string string;        (* phone -> username *)
    pendingTickets : gmap string Js.value }.   (* username -> ticketId *)

Definition no_stores : Stores :=
  {| verificationCodes := ∅; verifiedUsers := ∅; pendingTickets := ∅ |}.

Definition with_verificationCodes (f : gmap string Pending.t → gmap string Pending.t)
    (s : Stores) : Stores :=
  {| verificationCodes := f (verificationCodes s);
     verifiedUsers := verifiedUsers s;
     pendingTickets := pendingTickets s |}.

Definition with_verifiedUsers (f : gmap string string → gmap string string)
    (s : Stores) : Stores :=
  {| verificationCodes := verificationCodes s;
     verifiedUsers := f (verifiedUsers s);
     pendingTickets := pendingTickets s |}.

Definition with_pendingTickets (f : gmap string Js.value → gmap string Js.value)
    (s : Stores) : Stores :=
  {| verificationCodes := verificationCodes s;
     verifiedUsers := verifiedUsers s;
     pendingTickets := f (pendingTickets s) |}.

(** [m.has(k)]. *)
Definition has {V} (m : gmap string V) (k : string) : bool :=
  match m !! k with Some _ => true | None => false end.

(** A template literal prints an absent value as [undefined]. *)
Definition interpolate (o : option string) : string := default "undefined" o.

(** The inbound event of [client.onMessage]; [body] is absent or a string. *)
Record Message : Type :=
  { from : string; body : option string; isGroupMsg : bool }.

(** The texts the bot sends, one constructor per text of the source, with
    the values interpolated in it. *)
Inductive Reply : Type :=
| UsernameNotFound                           (* Username/email not found in our system. *)
| VerificationCodeSent (username code : string) (* Verification code for <username>: <code> *)
| CouldNotInitiate                           (* Could not initiate verification. Please try again later *)
| NoActiveRequest                            (* No active verification request found. Please start over *)
| CodeExpired                                (* Verification code expired. Please start over *)
| InvalidCode                                (* Invalid verification code. Please try again. *)
| VerificationSuccessful (username : string) (* Verification successful! Welcome <username>! *)
| CouldNotComplete                           (* Could not complete verification. Please try again later *)
| AccountHelp (username : string)            (* <username>'s Account Help: *)
| ProvideOrderId                             (* Please provide an order ID. Example: /order 12345 *)
| OrderStatus (order : Order.t)              (* Order #<id> ... Link: <link or N/A> *)
| CouldNotFetchOrder                         (* Could not fetch order details. *)
| Hello (username : string)                  (* Hello <username>! Send /order [id] ... *)
| ErrorOccurred.                             (* An error occurred. Please try again. *)

(** ** Effects of a handler *)

(** The four requests to the backend. *)
Inductive Call : Type :=
| GetUsers                                (* GET  /users *)
| PostTicketsAdd (username : string)      (* POST /tickets/add *)
| PostTicketsUpdate (ticket_id : Js.value) (* POST /tickets/update *)
| GetOrder (orderId : string).            (* GET  /orders/<orderId> *)

Record TicketAdded : Type := { added_error_code : Js.value; ticket_id : Js.value }.
Record OrderFetched : Type := { order_error_code : Js.value; data : Order.t }.

(** What the handler reads in the payload of each request. *)
Definition Response (c : Call) : Type :=
  match c with
  | GetUsers => list User.t          (* response.data.data.list *)
  | PostTicketsAdd _ => TicketAdded  (* data.error_code, data.data.ticket_id *)
  | PostTicketsUpdate _ => unit      (* not read *)
  | GetOrder _ => OrderFetched       (* data.error_code, data.data *)
  end.

Inductive Outcome (X : Type) : Type :=
| Rejected
| Resolved (x : X).
Arguments Rejected {X}.
Arguments Resolved {X} x.

Inductive Eff : Type → Type :=
| Read : Eff Stores
| Write (s : Stores) : Eff unit
| DateNow : Eff Z
| RandomInt (min max : Z) : Eff Z
| SendText (to : string) (text : Reply) : Eff unit
| Request (c : Call) : Eff (Outcome (Response c)).

(** A handler: it returns, throws, or performs an effect and goes on with
    the answer. *)
Inductive Prog (A : Type) : Type :=
| Ret (a : A)
| Throw
| Vis {X : Type} (e : Eff X) (k : X → Prog A).
Arguments Ret {A} a.
Arguments Throw {A}.
Arguments Vis {A X} e k.

Fixpoint bind {A B} (p : Prog A) (f : A → Prog B) : Prog B :=
  match p with
  | Ret a => f a
  | Throw => Throw
  | Vis e k => Vis e (λ x, bind (k x) f)
  end.

(** [try { p } catch (error) { h }]. *)
Fixpoint try_catch {A} (p : Prog A) (h : Prog A) : Prog A :=
  match p with
  | Ret a => Ret a
  | Throw => h
  | Vis e k => Vis e (λ x, try_catch (k x) h)
  end.

Declare Scope prog_scope.
Delimit Scope prog_scope with prog.
Bind Scope prog_scope with Prog.
Notation "x <- p ;; q" := (bind p (λ x, q))
  (at level 100, p at next level, right associativity) : prog_scope.
Notation "p ;; q" := (bind p (λ _, q))
  (at level 100, right associativity) : prog_scope.
Local Open Scope prog_scope.

Definition trigger {X} (e : Eff X) : Prog X := Vis e Ret.

(** [await axios...]: a rejection is thrown where the handler awaits. *)
Definition await (c : Call) : Prog (Response c) :=
  Vis (Request c) (λ o, match o with Rejected => Throw | Resolved x => Ret x end).

Definition modify (f : Stores → Stores) : Prog unit :=
  s <- trigger Read ;; trigger (Write (f s)).

Definition sendText (to : string) (text : Reply) : Prog unit :=
  trigger (SendText to text).

(** ** The handlers of [src/index.js] *)

(** The code is drawn with [crypto.randomInt(100000, 999999).toString()]. *)
Definition verificationCode_of (draw : Z) : string :=
  Js.Number_toString (Js.randomInt 100000 999999 draw).

(** The test of [list.find]: [u.username === username || u.email === username]. *)
Definition identifies (username : string) (u : User.t) : bool :=
  String.eqb (User.username u) username || String.eqb (User.email u) username.

(** [handleUsernameSubmission(client, phone, username)]. *)
Definition handleUsernameSubmission (phone username : string) : Prog unit :=
  try_catch
    (list <- await GetUsers ;;
     match find (identifies username) list with
     | None => sendText phone UsernameNotFound
     | Some user =>
         ticketResponse <- await (PostTicketsAdd (User.username user)) ;;
         if Js.strict_neq_zero (added_error_code ticketResponse) then Throw
         else
           let ticketId := ticket_id ticketResponse in
           modify (with_pendingTickets <[User.username user := ticketId]>) ;;
           n <- trigger (RandomInt 100000 999999) ;;
           let verificationCode := Js.Number_toString n in
           now <- trigger DateNow ;;
           modify (with_verificationCodes
                     <[phone := {| Pending.code := verificationCode;
                                   Pending.username := User.username user;
                                   Pending.timestamp := now |}]>) ;;
           sendText phone (VerificationCodeSent (User.username user) verificationCode)
     end)
    (sendText phone CouldNotInitiate).

(** [handleVerificationCode(client, phone, code)]. *)
Definition handleVerificationCode (phone code : string) : Prog unit :=
  try_catch
    (s <- trigger Read ;;
     match verificationCodes s !! phone with
     | None => sendText phone NoActiveRequest
     | Some storedData =>
         now <- trigger DateNow ;;
         if 600000 <? now - Pending.timestamp storedData then
           modify (with_verificationCodes (delete phone)) ;;
           sendText phone CodeExpired
         else if negb (String.eqb code (Pending.code storedData)) then
           sendText phone InvalidCode
         else
           modify (with_verifiedUsers <[phone := Pending.username storedData]>) ;;
           modify (with_verificationCodes (delete phone)) ;;
           s' <- trigger Read ;;
           match pendingTickets s' !! Pending.username storedData with
           | Some ticketId =>
               if Js.truthy ticketId then
                 await (PostTicketsUpdate ticketId) ;;
                 modify (with_pendingTickets (delete (Pending.username storedData)))
               else Ret tt
           | None => Ret tt
           end ;;
           sendText phone (VerificationSuccessful (Pending.username storedData))
     end)
    (sendText phone CouldNotComplete).

(** [order.link || 'N/A'] in the status card. *)
Definition link_or_NA (order : Order.t) : Order.t :=
  {| Order.id := Order.id order; Order.service_name := Order.service_name order;
     Order.status := Order.status order; Order.quantity := Order.quantity order;
     Order.remains := Order.remains order; Order.created := Order.created order;
     Order.link := if Js.truthy (Order.link order) then Order.link order
                   else Js.Str "N/A" |}.

(** [handleVerifiedUser(client, phone, msg)]. *)
Definition handleVerifiedUser (phone msg : string) : Prog unit :=
  s <- trigger Read ;;
  let username := interpolate (verifiedUsers s !! phone) in
  if String.eqb (Js.toLowerCase msg) "/help" then
    sendText phone (AccountHelp username)
  else if Js.startsWith (Js.toLowerCase msg) "/order " then
    match Js.split_space msg !! 1%nat with
    | None | Some EmptyString => sendText phone ProvideOrderId
    | Some orderId =>
        try_catch
          (response <- await (GetOrder orderId) ;;
           if Js.strict_neq_zero (order_error_code response) then Throw
           else sendText phone (OrderStatus (link_or_NA (data response))))
          (sendText phone CouldNotFetchOrder)
    end
  else sendText phone (Hello username).

(** [msg.length === 6 && /^\d+$/.test(msg)]. *)
Definition is_code (msg : string) : bool :=
  (String.length msg =? 6)%nat && Js.test_digits msg.

(** [(message.body || '').toString().trim()]. *)
Definition text_of (message : Message) : string :=
  Js.trim (default "" (body message)).

(** [handleMessage(client, message)]. *)
Definition handleMessage (message : Message) : Prog unit :=
  let phone := from message in
  let msg := text_of message in
  s <- trigger Read ;;
  if has (verifiedUsers s) phone then handleVerifiedUser phone msg
  else if has (verificationCodes s) phone && is_code msg then
    handleVerificationCode phone msg
  else if (0 <? String.length msg)%nat then handleUsernameSubmission phone msg
  else Ret tt.

(** The callback that [startBot] registers with [client.onMessage]. *)
Definition onMessage (message : Message) : Prog unit :=
  try_catch
    (if negb (isGroupMsg message) then handleMessage message else Ret tt)
    (sendText (from message) ErrorOccurred).

(** ** Running a handler *)

(** What the handlers act on: the stores and the texts sent so far. *)
Record World : Type :=
  { stores : Stores; outbox : list (string * Reply) }.

Definition fresh (s : Stores) : World := {| stores := s; outbox := [] |}.

(** What the outside gives one handler: the clock, the entropy of
    [crypto.randomInt] and the outcome of each request. *)
Record Env : Type :=
  { now : Z; draw : Z; backend : ∀ c : Call, Outcome (Response c) }.

(** The effects that complete at once. *)
Definition immediate {X} (now draw : Z) (e : Eff X) (w : World)
    : option (X * World) :=
  match e in Eff X return option (X * World) with
  | Read => Some (stores w, w)
  | Write s => Some (tt, {| stores := s; outbox := outbox w |})
  | DateNow => Some (now, w)
  | RandomInt min max => Some (Js.randomInt min max draw, w)
  | SendText to text =>
      Some (tt, {| stores := stores w; outbox := outbox w ++ [(to, text)] |})
  | Request _ => None
  end.

(** Every effect, the requests answered by [backend]. *)
Definition perform {X} (env : Env) (e : Eff X) (w : World) : X * World :=
  match e in Eff X return X * World with
  | Read => (stores w, w)
  | Write s => (tt, {| stores := s; outbox := outbox w |})
  | DateNow => (now env, w)
  | RandomInt min max => (Js.randomInt min max (draw env), w)
  | SendText to text =>
      (tt, {| stores := stores w; outbox := outbox w ++ [(to, text)] |})
  | Request c => (backend env c, w)
  end.

(** One handler run to completion: the world it leaves, and its value
    unless it threw. *)
Fixpoint run {A} (env : Env) (p : Prog A) (w : World) : World * option A :=
  match p with
  | Ret a => (w, Some a)
  | Throw => (w, None)
  | Vis e k => let '(x, w') := perform env e w in run env (k x) w'
  end.

(** The bot serving messages one at a time, each handled to completion
    before the next is taken. *)
Definition serve1 (w : World) (em : Env * Message) : World :=
  (run em.1 (onMessage em.2) w).1.

Definition serve (trace : list (Env * Message)) (w : World) : World :=
  foldl serve1 w trace.

(** ** The handlers on the event loop *)

(** A handler runs until its next [await]; there it is parked with its
    continuation and the loop takes another event. *)
Fixpoint advance {A} (now draw : Z) (p : Prog A) (w : World) : World * Prog A :=
  match p with
  | Vis e k =>
      match immediate now draw e w with
      | Some (x, w') => advance now draw (k x) w'
      | None => (w, p)
      end
  | _ => (w, p)
  end.

Record Loop : Type :=
  { world : World; parked : list (Prog unit) }.

Definition boot : Loop := {| world := fresh no_stores; parked := [] |}.

(** A handler that has returned or thrown leaves the loop. *)
Definition park (wp : World * Prog unit) (others : list (Prog unit)) : Loop :=
  match wp.2 with
  | Vis _ _ => {| world := wp.1; parked := others ++ [wp.2] |}
  | _ => {| world := wp.1; parked := others |}
  end.

(** What the loop takes next: a message arrives, or the request of the
    parked handler at [position] settles with outcome [o].  Either way a
    handler runs up to its next [await], with the clock and entropy of
    that moment. *)
Inductive Event : Type :=
| Arrives (now draw : Z) (message : Message)
| Settles (now draw : Z) (position : nat) (c : Call) (o : Outcome (Response c)).

Inductive loop_step : Loop → Event → Loop → Prop :=
| loop_message now draw message w ps :
    loop_step {| world := w; parked := ps |}
              (Arrives now draw message)
              (park (advance now draw (onMessage message) w) ps)
| loop_settled now draw c (o : Outcome (Response c)) k w ps1 ps2 :
    loop_step {| world := w; parked := ps1 ++ Vis (Request c) k :: ps2 |}
              (Settles now draw (length ps1) c o)
              (park (advance now draw (k o) w) (ps1 ++ ps2)).

Inductive loop_run : Loop → list Event → Loop → Prop :=
| loop_done l : loop_run l [] l
| loop_next l1 ev l2 evs l3 :
    loop_step l1 ev l2 → loop_run l2 evs l3 → loop_run l1 (ev :: evs) l3.

(** ** Vocabulary of the statements *)

(** The ticket update that [handleVerificationCode] awaits for [username],
    if it makes one, with the outcome the backend gives it: none when
    [pendingTickets] has no truthy ticket id for the user. *)
Definition ticket_update (env : Env) (s : Stores) (username : string)
    : option (Outcome unit) :=
  match pendingTickets s !! username with
  | Some ticketId =>
      if Js.truthy ticketId then Some (backend env (PostTicketsUpdate ticketId))
      else None
  | None => None
  end.

(** The world after one more text, and with other stores. *)
Definition sent (w : World) (to : string) (text : Reply) : World :=
  {| stores := stores w; outbox := outbox w ++ [(to, text)] |}.

Definition stored (w : World) (s : Stores) : World :=
  {| stores := s; outbox := outbox w |}.

(** The stores once a code has matched: the phone is verified and its
    pending entry gone; the ticket entry goes too when the update came
    back. *)
Definition verified_stores (s : Stores) (phone : string) (storedData : Pending.t)
    (resolved : bool) : Stores :=
  let s' := with_verificationCodes (delete phone)
              (with_verifiedUsers <[phone := Pending.username storedData]> s) in
  if resolved
  then with_pendingTickets (delete (Pending.username storedData)) s'
  else s'.

(** The stores once a code is issued to [phone] for [user] under ticket
    [ticketId]. *)
Definition issued_stores (env : Env) (s : Stores) (phone : string)
    (user : User.t) (ticketId : Js.value) : Stores :=
  with_verificationCodes
    <[phone := {| Pending.code := verificationCode_of (draw env);
                  Pending.username := User.username user;
                  Pending.timestamp := now env |}]>
    (with_pendingTickets <[User.username user := ticketId]> s).

(** The three states of a phone number. *)
Definition is_unknown (s : Stores) (phone : string) : Prop :=
  verificationCodes s !! phone = None ∧ verifiedUsers s !! phone = None.







(** ** A scenario to evaluate the handlers on

    The scenario of the specification: the identifier of alice is found,
    ticket T1 is opened and the code 482913 is issued at time 1000. *)

Module Scenario.

Definition alice : User.t :=
  {| User.username := "alice"; User.email := "alice@example.com" |}.

Definition phone : string := "8801700000000@c.us".

Definition says (text : string) : Message :=
  {| from := phone; body := Some text; isGroupMsg := false |}.

(** A body of white space only: SPACE, TAB, NBSP, LF. *)
Definition blank : string :=
  String " " (String (ascii_of_N 9) (String (ascii_of_N 160)
    (String (ascii_of_N 10) EmptyString))).

Definition digits : User.t :=
  {| User.username := "123456"; User.email := "digits@example.com" |}.

(** A backend that lists [users], opens ticket T1, answers the ticket
    update with [update] and knows no order. *)
Definition backend_with (users : list User.t) (update : Outcome unit)
    (c : Call) : Outcome (Response c) :=
  match c return Outcome (Response c) with
  | GetUsers => Resolved users
  | PostTicketsAdd _ =>
      Resolved {| added_error_code := Js.Num 0; ticket_id := Js.Str "T1" |}
  | PostTicketsUpdate _ => update
  | GetOrder _ => Rejected
  end.

Definition ticket (t : string) : TicketAdded :=
  {| added_error_code := Js.Num 0; ticket_id := Js.Str t |}.

Definition down (c : Call) : Outcome (Response c) := Rejected.

Definition at_time (t : Z) (b : ∀ c, Outcome (Response c)) : Env :=
  {| now := t; draw := 382913; backend := b |}.

Definition issued : Pending.t :=
  {| Pending.code := "482913"; Pending.username := "alice";
     Pending.timestamp := 1000 |}.

(** The stores once the code is issued. *)
Definition pending : Stores :=
  {| verificationCodes := {[ phone := issued ]};
     verifiedUsers := ∅;
     pendingTickets := {[ "alice" := Js.Str "T1" ]} |}.

(** The stores once alice is verified and the ticket resolved. *)
Definition verified : Stores :=
  {| verificationCodes := ∅;
     verifiedUsers := {[ phone := "alice" ]};
     pendingTickets := ∅ |}.

(** The phone sends its identifier and is issued 482913; it sends the
    identifier again and, while that lookup is in flight, the code; the
    code is accepted and the ticket resolved; then the second lookup and
    its ticket come back. *)
Definition overlapping : list Event :=
  [ Arrives 1000 382913 (says "alice");
    Settles 1000 382913 0 GetUsers (Resolved [alice]);
    Settles 1000 382913 0 (PostTicketsAdd "alice") (Resolved (ticket "T1"));
    Arrives 2000 0 (says "alice");
    Arrives 3000 0 (says "482913");
    Settles 3000 0 1 (PostTicketsUpdate (Js.Str "T1")) (Resolved tt);
    Settles 4000 17 0 GetUsers (Resolved [alice]);
    Settles 4000 17 0 (PostTicketsAdd "alice") (Resolved (ticket "T2")) ].

(** The stores that trace ends in. *)
Definition both : Stores :=
  {| verificationCodes :=
       {[ phone := {| Pending.code := "100017"; Pending.username := "alice";
                      Pending.timestamp := 4000 |} ]};
     verifiedUsers := {[ phone := "alice" ]};
     pendingTickets := {[ "alice" := Js.Str "T2" ]} |}.

End Scenario.

(** ** The requests a handler sends *)

Definition request_of {X} (e : Eff X) : list Call :=
  match e with
  | Request c => [c]
  | _ => []
  end.

(** The requests one handler sends to the backend, in order, when it is run
    to completion. *)
Fixpoint requests {A} (env : Env) (p : Prog A) (w : World) : list Call :=
  match p with
  | Vis e k =>
      let '(x, w') := perform env e w in
      request_of e ++ requests env (k x) w'
  | _ => []
  end.

(** ** Vocabulary of the further statements *)

(** No code unit of [s] is a space. *)
Fixpoint no_space (s : string) : bool :=
  match s with
  | EmptyString => true
  | String c r => negb (Ascii.eqb c " "%char) && no_space r
  end.

(** The text that answers an order command once the request has settled. *)
Definition order_reply (o : Outcome OrderFetched) : Reply :=
  match o with
  | Rejected => CouldNotFetchOrder
  | Resolved response =>
      if Js.strict_neq_zero (order_error_code response) then CouldNotFetchOrder
      else OrderStatus (link_or_NA (data response))
  end.

(** [p], started in world [w], keeps every entry of [verifiedUsers]: each
    write it makes at once leaves the entries there, and so does what it
    goes on with after a request, whatever the answer and whatever the
    world has become when the answer comes. *)
Fixpoint keeps_verified {A} (p : Prog A) (w : World) : Prop :=
  match p with
  | Vis e k =>
      (∀ now draw x w',
         immediate now draw e w = Some (x, w') →
         verifiedUsers (stores w) ⊆ verifiedUsers (stores w')
         ∧ keeps_verified (k x) w')
      ∧ (∀ now draw,
           immediate now draw e w = None → ∀ x w', keeps_verified (k x) w')
  | _ => True
  end.

(** Every parked handler keeps the entries of [verifiedUsers]. *)
Definition parked_keep (l : Loop) : Prop :=
  Forall (λ p, ∀ w, keeps_verified p w) (parked l).

(** The trace [Scenario.overlapping], cut where the phone is verified. *)
Definition until_verified : list Event := take 6 Scenario.overlapping.
Definition after_verified : list Event := drop 6 Scenario.overlapping.

(** [s] neither starts nor ends with white space: it is what is left of a
    body when the white space before and after it is taken away. *)
Definition no_outer_space (s : string) : bool :=
  match Js.first s with Some c => negb (Js.is_space c) | None => true end
  && match Js.last s with Some c => negb (Js.is_space c) | None => true end.

(** * Properties *)

(** ** The primitives and the scenario, evaluated *)

Example trim_ex : Js.trim ("  ab c " ++ Scenario.blank) = "ab c".
Proof. reflexivity. Qed.

Example split_ex : Js.split_space "/order  12 x" = ["/order"; ""; "12"; "x"].
Proof. reflexivity. Qed.

Example toString_ex :
  map Js.Number_toString [0; 7; 10; 99; 100; 482913; 999998; -45]
  = ["0"; "7"; "10"; "99"; "100"; "482913"; "999998"; "-45"].
Proof. reflexivity. Qed.

Example lower_ex : Js.toLowerCase "/Order 12A" = "/order 12a".
Proof. reflexivity. Qed.

Example scenario_issue :
  run (Scenario.at_time 1000 (Scenario.backend_with [Scenario.alice] (Resolved tt)))
      (onMessage (Scenario.says "alice")) (fresh no_stores)
  = ({| stores := Scenario.pending;
        outbox := [(Scenario.phone, VerificationCodeSent "alice" "482913")] |},
     Some tt).
Proof. reflexivity. Qed.

Example scenario_verify :
  run (Scenario.at_time 5000 (Scenario.backend_with [Scenario.alice] (Resolved tt)))
      (onMessage (Scenario.says "482913")) (fresh Scenario.pending)
  = ({| stores := Scenario.verified;
        outbox := [(Scenario.phone, VerificationSuccessful "alice")] |},
     Some tt).
Proof. reflexivity. Qed.

Example scenario_not_found :
  run (Scenario.at_time 1000 (Scenario.backend_with [Scenario.alice] (Resolved tt)))
      (onMessage (Scenario.says "bob")) (fresh no_stores)
  = ({| stores := no_stores; outbox := [(Scenario.phone, UsernameNotFound)] |},
     Some tt).
Proof. reflexivity. Qed.

Example scenario_order_failure :
  run (Scenario.at_time 5000 Scenario.down)
      (onMessage (Scenario.says "/order 999")) (fresh Scenario.verified)
  = ({| stores := Scenario.verified;
        outbox := [(Scenario.phone, CouldNotFetchOrder)] |},
     Some tt).
Proof. reflexivity. Qed.

Example scenario_greeting :
  run (Scenario.at_time 5000 Scenario.down)
      (onMessage (Scenario.says "hi")) (fresh Scenario.verified)
  = ({| stores := Scenario.verified;
        outbox := [(Scenario.phone, Hello "alice")] |},
     Some tt).
Proof. reflexivity. Qed.

(** ** Equations of [run] *)

Lemma run_bind {A B} env (p : Prog A) (f : A → Prog B) w :
  run env (bind p f) w
  = match run env p w with
    | (w', Some a) => run env (f a) w'
    | (w', None) => (w', None)
    end.
Proof.
  revert w. induction p as [a | | X e k IH]; intros w; cbn; try reflexivity.
  destruct (perform env e w) as [x w']. apply IH.
Qed.

Lemma run_try_catch {A} env (p h : Prog A) w :
  run env (try_catch p h) w
  = match run env p w with
    | (w', None) => run env h w'
    | done => done
    end.
Proof.
  revert w. induction p as [a | | X e k IH]; intros w; cbn; try reflexivity.
  destruct (perform env e w) as [x w']. apply IH.
Qed.

Lemma run_read {A} env (k : Stores → Prog A) w :
  run env (s <- trigger Read ;; k s) w = run env (k (stores w)) w.
Proof. reflexivity. Qed.

Lemma run_sendText env to text w :
  run env (sendText to text) w
  = ({| stores := stores w; outbox := outbox w ++ [(to, text)] |}, Some tt).
Proof. reflexivity. Qed.

(** An effect that completes at once does the same in both readings. *)
Lemma perform_immediate {X} env (e : Eff X) w r :
  immediate (now env) (draw env) e w = Some r → perform env e w = r.
Proof. destruct e; cbn; congruence. Qed.

(** ** Dispatch of [handleMessage] *)

Section Dispatch.

Variables (env : Env) (w : World) (message : Message).

Lemma dispatch_verified u :
  verifiedUsers (stores w) !! from message = Some u →
  run env (handleMessage message) w
  = run env (handleVerifiedUser (from message) (text_of message)) w.
Proof.
  intros Hv. unfold handleMessage, has. rewrite run_read.
  rewrite Hv. reflexivity.
Qed.

Lemma dispatch_code storedData :
  verifiedUsers (stores w) !! from message = None →
  verificationCodes (stores w) !! from message = Some storedData →
  is_code (text_of message) = true →
  run env (handleMessage message) w
  = run env (handleVerificationCode (from message) (text_of message)) w.
Proof.
  intros Hv Hp Hc. unfold handleMessage, has. rewrite run_read.
  rewrite Hv, Hp, Hc. reflexivity.
Qed.

Lemma dispatch_username :
  verifiedUsers (stores w) !! from message = None →
  verificationCodes (stores w) !! from message = None
  ∨ is_code (text_of message) = false →
  text_of message ≠ "" →
  run env (handleMessage message) w
  = run env (handleUsernameSubmission (from message) (text_of message)) w.
Proof.
  intros Hv Hp Hne. unfold handleMessage, has. rewrite run_read.
  rewrite Hv.
  replace (match verificationCodes (stores w) !! from message with
           | Some _ => true | None => false end
           && is_code (text_of message)) with false
    by (destruct Hp as [-> | ->]; [reflexivity | symmetry; apply andb_false_r]).
  destruct (text_of message) as [|c r] eqn:E; [congruence | reflexivity].
Qed.

Lemma dispatch_nothing :
  verifiedUsers (stores w) !! from message = None →
  text_of message = "" →
  run env (handleMessage message) w = (w, Some tt).
Proof.
  intros Hv He. unfold handleMessage, has. rewrite run_read.
  rewrite Hv, He.
  rewrite andb_false_r. reflexivity.
Qed.

End Dispatch.

(** ** [handleVerificationCode], case by case *)

Section VerificationCode.

Variables (env : Env) (w : World) (phone code : string).

Lemma code_no_entry :
  verificationCodes (stores w) !! phone = None →
  run env (handleVerificationCode phone code) w
  = (sent w phone NoActiveRequest, Some tt).
Proof.
  intros Hp. unfold handleVerificationCode. cbn. rewrite Hp. reflexivity.
Qed.

Variable storedData : Pending.t.
Hypothesis Hentry : verificationCodes (stores w) !! phone = Some storedData.

Lemma code_expired :
  600000 < now env - Pending.timestamp storedData →
  run env (handleVerificationCode phone code) w
  = (sent (stored w (with_verificationCodes (delete phone) (stores w)))
          phone CodeExpired, Some tt).
Proof.
  intros Ht. unfold handleVerificationCode. cbn. rewrite Hentry.
  apply Z.ltb_lt in Ht. cbn. rewrite Ht. reflexivity.
Qed.

Lemma code_mismatch :
  now env - Pending.timestamp storedData ≤ 600000 →
  code ≠ Pending.code storedData →
  run env (handleVerificationCode phone code) w
  = (sent w phone InvalidCode, Some tt).
Proof.
  intros Ht Hne. unfold handleVerificationCode. cbn. rewrite Hentry.
  apply Z.ltb_ge in Ht. apply String.eqb_neq in Hne. cbn.
  rewrite Ht, Hne. reflexivity.
Qed.

Lemma code_match :
  now env - Pending.timestamp storedData ≤ 600000 →
  code = Pending.code storedData →
  run env (handleVerificationCode phone code) w
  = match ticket_update env (stores w) (Pending.username storedData) with
    | Some Rejected =>
        (sent (stored w (verified_stores (stores w) phone storedData false)) phone CouldNotComplete, Some tt)
    | Some (Resolved _) =>
        (sent (stored w (verified_stores (stores w) phone storedData true)) phone
              (VerificationSuccessful (Pending.username storedData)), Some tt)
    | None =>
        (sent (stored w (verified_stores (stores w) phone storedData false)) phone
              (VerificationSuccessful (Pending.username storedData)), Some tt)
    end.
Proof.
  intros Ht Hc. unfold handleVerificationCode, ticket_update. cbn.
  rewrite Hentry. apply Z.ltb_ge in Ht. cbn. rewrite Ht.
  rewrite Hc, String.eqb_refl. cbn.
  destruct (pendingTickets (stores w) !! Pending.username storedData)
    as [ticketId|]; [|reflexivity].
  destruct (Js.truthy ticketId); [|reflexivity].
  cbn. destruct (backend env (PostTicketsUpdate ticketId)) as [|[]]; reflexivity.
Qed.

End VerificationCode.

(** ** [handleUsernameSubmission], case by case *)

Section UsernameSubmission.

Variables (env : Env) (w : World) (phone username : string).

Lemma submission_lookup_rejected :
  backend env GetUsers = Rejected →
  run env (handleUsernameSubmission phone username) w
  = (sent w phone CouldNotInitiate, Some tt).
Proof.
  intros Hu. unfold handleUsernameSubmission. cbn. rewrite Hu. reflexivity.
Qed.

Variable list : list User.t.
Hypothesis Hlist : backend env GetUsers = Resolved list.

Lemma submission_not_found :
  find (identifies username) list = None →
  run env (handleUsernameSubmission phone username) w
  = (sent w phone UsernameNotFound, Some tt).
Proof.
  intros Hf. unfold handleUsernameSubmission. cbn. rewrite Hlist. cbn.
  rewrite Hf. reflexivity.
Qed.

Variable user : User.t.
Hypothesis Hfound : find (identifies username) list = Some user.

Lemma submission_ticket_rejected :
  backend env (PostTicketsAdd (User.username user)) = Rejected →
  run env (handleUsernameSubmission phone username) w
  = (sent w phone CouldNotInitiate, Some tt).
Proof.
  intros Ht. unfold handleUsernameSubmission. cbn. rewrite Hlist. cbn.
  rewrite Hfound. cbn. rewrite Ht. reflexivity.
Qed.

Variable ticketResponse : TicketAdded.
Hypothesis Hticket :
  backend env (PostTicketsAdd (User.username user)) = Resolved ticketResponse.

Lemma submission_ticket_error :
  Js.strict_neq_zero (added_error_code ticketResponse) = true →
  run env (handleUsernameSubmission phone username) w
  = (sent w phone CouldNotInitiate, Some tt).
Proof.
  intros He. unfold handleUsernameSubmission. cbn. rewrite Hlist. cbn.
  rewrite Hfound. cbn. rewrite Hticket. cbn. rewrite He. reflexivity.
Qed.

Lemma submission_issued :
  Js.strict_neq_zero (added_error_code ticketResponse) = false →
  run env (handleUsernameSubmission phone username) w
  = (sent (stored w (issued_stores env (stores w) phone user
                                   (ticket_id ticketResponse)))
          phone
          (VerificationCodeSent (User.username user)
                                (verificationCode_of (draw env))),
     Some tt).
Proof.
  intros He. unfold handleUsernameSubmission. cbn. rewrite Hlist. cbn.
  rewrite Hfound. cbn. rewrite Hticket. cbn. rewrite He. reflexivity.
Qed.

End UsernameSubmission.

(** ** Trimming *)

Lemma trimStart_blank s : Js.all_space s = true → Js.trimStart s = "".
Proof.
  induction s as [|c r IH]; cbn; [reflexivity |].
  intros H. apply andb_true_iff in H as [Hc Hr]. rewrite Hc. auto.
Qed.

Lemma trim_blank s : Js.all_space s = true → Js.trim s = "".
Proof. intros H. unfold Js.trim. rewrite trimStart_blank by exact H. reflexivity. Qed.

Lemma trimStart_first s c :
  Js.first (Js.trimStart s) = Some c → Js.is_space c = false.
Proof.
  induction s as [|a r IH]; cbn; [discriminate |].
  destruct (Js.is_space a) eqn:E; [exact IH |].
  cbn. intros [= <-]. exact E.
Qed.

Lemma trimEnd_first s : Js.trimEnd s ≠ "" → Js.first (Js.trimEnd s) = Js.first s.
Proof.
  destruct s as [|a r]; cbn; [reflexivity |].
  destruct (Js.trimEnd r); [destruct (Js.is_space a) |]; cbn; congruence.
Qed.

Lemma trimEnd_last s c :
  Js.last (Js.trimEnd s) = Some c → Js.is_space c = false.
Proof.
  induction s as [|a r IH]; cbn; [discriminate |].
  destruct (Js.trimEnd r) as [|b t] eqn:E.
  - destruct (Js.is_space a) eqn:Ea; cbn; [discriminate |].
    intros [= <-]. exact Ea.
  - cbn in *. exact IH.
Qed.

Lemma trimStart_fixed s :
  (∀ c, Js.first s = Some c → Js.is_space c = false) → Js.trimStart s = s.
Proof.
  destruct s as [|a r]; cbn; [reflexivity |].
  intros H. rewrite (H a) by reflexivity. reflexivity.
Qed.

Lemma trimEnd_idempotent s : Js.trimEnd (Js.trimEnd s) = Js.trimEnd s.
Proof.
  induction s as [|a r IH]; cbn; [reflexivity |].
  destruct (Js.trimEnd r) as [|b t] eqn:E.
  - destruct (Js.is_space a) eqn:Ea; cbn; [reflexivity |].
    rewrite Ea. reflexivity.
  - cbn [Js.trimEnd] in *. rewrite IH. reflexivity.
Qed.

Lemma trim_idempotent s : Js.trim (Js.trim s) = Js.trim s.
Proof.
  unfold Js.trim.
  rewrite (trimStart_fixed (Js.trimEnd (Js.trimStart s))).
  - apply trimEnd_idempotent.
  - intros c H.
    destruct (Js.trimEnd (Js.trimStart s)) eqn:E; [discriminate |].
    rewrite <- E in H. rewrite trimEnd_first in H by (rewrite E; discriminate).
    eapply trimStart_first, H.
Qed.

(** The handler cannot tell a body from its trimmed form. *)
Lemma handleMessage_trims message :
  handleMessage message
  = handleMessage {| from := from message; body := Some (text_of message);
                     isGroupMsg := isGroupMsg message |}.
Proof.
  unfold handleMessage, text_of. cbn [from body default from_option id].
  rewrite trim_idempotent. reflexivity.
Qed.

(** The text that [handleMessage] dispatches on neither starts nor ends
    with white space. *)
Lemma text_of_trimmed message c :
  Js.first (text_of message) = Some c ∨ Js.last (text_of message) = Some c →
  Js.is_space c = false.
Proof.
  unfold text_of, Js.trim. intros [H | H].
  - destruct (Js.trimEnd (Js.trimStart (default "" (body message)))) eqn:E;
      [discriminate |].
    rewrite <- E in H. rewrite trimEnd_first in H by (rewrite E; discriminate).
    eapply trimStart_first, H.
  - eapply trimEnd_last, H.
Qed.

Lemma append_cons c a b : String c a ++ b = String c (a ++ b).
Proof. reflexivity. Qed.

Lemma trimEnd_blank p : Js.all_space p = true → Js.trimEnd p = "".
Proof.
  induction p as [|c p IH]; cbn; [reflexivity |].
  intros H. apply andb_true_iff in H as [Hc Hp]. rewrite (IH Hp), Hc. reflexivity.
Qed.

Lemma trimStart_padded p s :
  Js.all_space p = true → Js.trimStart (p ++ s) = Js.trimStart s.
Proof.
  induction p as [|c p IH]; [reflexivity |].
  rewrite append_cons. cbn. intros H. apply andb_true_iff in H as [Hc Hp].
  rewrite Hc. apply IH, Hp.
Qed.

Lemma trimEnd_padded s p :
  Js.all_space p = true → Js.trimEnd (s ++ p) = Js.trimEnd s.
Proof.
  intros Hp. induction s as [|c s IH]; [apply trimEnd_blank, Hp |].
  rewrite append_cons. cbn [Js.trimEnd]. rewrite IH. reflexivity.
Qed.

Lemma trim_padded_end s p :
  Js.all_space p = true → Js.trim (s ++ p) = Js.trim s.
Proof.
  intros Hp. unfold Js.trim. induction s as [|c s IH].
  - cbn [String.append]. change ("" ++ p) with p.
    rewrite trimStart_blank by exact Hp. reflexivity.
  - rewrite append_cons. cbn [Js.trimStart].
    destruct (Js.is_space c); [exact IH |].
    rewrite <- append_cons. apply trimEnd_padded, Hp.
Qed.

Lemma trimEnd_fixed s :
  (∀ c, Js.last s = Some c → Js.is_space c = false) → Js.trimEnd s = s.
Proof.
  induction s as [|a r IH]; [reflexivity |].
  intros H. cbn [Js.trimEnd]. destruct r as [|b r'].
  - cbn. rewrite (H a) by reflexivity. reflexivity.
  - rewrite IH by (intros c Hc; apply H; exact Hc). reflexivity.
Qed.

Lemma trim_fixed s : no_outer_space s = true → Js.trim s = s.
Proof.
  unfold no_outer_space. intros H. apply andb_true_iff in H as [Hf Hl].
  unfold Js.trim. rewrite trimStart_fixed.
  - apply trimEnd_fixed. intros c Hc. rewrite Hc in Hl.
    apply negb_true_iff, Hl.
  - intros c Hc. rewrite Hc in Hf. apply negb_true_iff, Hf.
Qed.

(** Trimming takes away the white space around a text and nothing else. *)
Lemma trim_padded before text after :
  Js.all_space before = true →
  Js.all_space after = true →
  no_outer_space text = true →
  Js.trim (before ++ text ++ after) = text.
Proof.
  intros Hb Ha Ht. unfold Js.trim at 1. rewrite trimStart_padded by exact Hb.
  change (Js.trim (text ++ after) = text).
  rewrite trim_padded_end by exact Ha. apply trim_fixed, Ht.
Qed.

Lemma trimStart_decomposes s :
  ∃ before, s = before ++ Js.trimStart s ∧ Js.all_space before = true.
Proof.
  induction s as [|c s (before & E & Hb)]; [exists ""; split; reflexivity |].
  cbn [Js.trimStart]. destruct (Js.is_space c) eqn:Hc.
  - exists (String c before). rewrite append_cons, <- E. cbn. rewrite Hc, Hb.
    split; reflexivity.
  - exists "". split; reflexivity.
Qed.

Lemma trimEnd_decomposes s :
  ∃ after, s = Js.trimEnd s ++ after ∧ Js.all_space after = true.
Proof.
  induction s as [|c s (after & E & Ha)]; [exists ""; split; reflexivity |].
  cbn [Js.trimEnd]. destruct (Js.trimEnd s) as [|b r] eqn:Es.
  - change ("" ++ after) with after in E. subst s.
    destruct (Js.is_space c) eqn:Hc.
    + exists (String c after). cbn. rewrite Hc, Ha. split; reflexivity.
    + exists after. split; [reflexivity | exact Ha].
  - exists after. rewrite append_cons, <- E. split; [reflexivity | exact Ha].
Qed.

(** Every body is its trimmed text with white space before and after it,
    and the trimmed text has none at either end. *)
Lemma trim_decomposes s :
  ∃ before after,
    s = before ++ Js.trim s ++ after
    ∧ Js.all_space before = true
    ∧ Js.all_space after = true
    ∧ no_outer_space (Js.trim s) = true.
Proof.
  destruct (trimStart_decomposes s) as (before & Eb & Hb).
  destruct (trimEnd_decomposes (Js.trimStart s)) as (after & Ea & Ha).
  exists before, after. unfold Js.trim. rewrite <- Ea, <- Eb.
  repeat split; try assumption.
  unfold no_outer_space. apply andb_true_iff. split.
  - destruct (Js.first (Js.trimEnd (Js.trimStart s))) as [c|] eqn:Hc;
      [| reflexivity].
    apply negb_true_iff.
    destruct (Js.trimEnd (Js.trimStart s)) eqn:E; [discriminate |].
    rewrite <- E in Hc. rewrite trimEnd_first in Hc by (rewrite E; discriminate).
    eapply trimStart_first, Hc.
  - destruct (Js.last (Js.trimEnd (Js.trimStart s))) as [c|] eqn:Hc;
      [| reflexivity].
    apply negb_true_iff. eapply trimEnd_last, Hc.
Qed.

(** ** Verification of a submitted code *)

(** C9.  For a phone with a pending verification, a six-digit message that
    differs from the stored code, submitted while the code is unexpired,
    gets the reply 'Invalid verification code. Please try again.' and
    leaves every store as it was: the pending entry keeps its code,
    username and timestamp, so the user can try again. *)
Theorem mismatch_keeps_pending env st message storedData :
  verifiedUsers st !! from message = None →
  verificationCodes st !! from message = Some storedData →
  is_code (text_of message) = true →
  text_of message ≠ Pending.code storedData →
  now env - Pending.timestamp storedData ≤ 600000 →
  run env (handleMessage message) (fresh st)
  = ({| stores := st; outbox := [(from message, InvalidCode)] |}, Some tt)
  ∧ verificationCodes (stores (run env (handleMessage message) (fresh st)).1)
      !! from message = Some storedData.
Proof.
  intros Hv Hp Hc Hne Ht.
  rewrite (dispatch_code env (fresh st) message storedData Hv Hp Hc).
  rewrite (code_mismatch env (fresh st) _ _ storedData Hp Ht Hne).
  split; [reflexivity | exact Hp].
Qed.

Lemma mismatch_keeps_pending_witness :
  run (Scenario.at_time 5000 Scenario.down)
      (handleMessage (Scenario.says "000000")) (fresh Scenario.pending)
  = ({| stores := Scenario.pending;
        outbox := [(Scenario.phone, InvalidCode)] |}, Some tt)
  ∧ verificationCodes
      (stores (run (Scenario.at_time 5000 Scenario.down)
                   (handleMessage (Scenario.says "000000"))
                   (fresh Scenario.pending)).1)
      !! Scenario.phone = Some Scenario.issued.
Proof.
  apply (mismatch_keeps_pending (Scenario.at_time 5000 Scenario.down)
           Scenario.pending (Scenario.says "000000") Scenario.issued).
  - reflexivity.
  - reflexivity.
  - reflexivity.
  - discriminate.
  - vm_compute. discriminate.
Defined.

(** C3, as stated, fails at the boundary: the code 482913 issued at time
    1000 and submitted at time 601000, exactly 600000 ms later, is accepted;
    the reply is the success text and the phone is verified. *)
Lemma expiry_boundary_accepted :
  now (Scenario.at_time 601000 Scenario.down)
    - Pending.timestamp Scenario.issued = 600000
  ∧ verificationCodes Scenario.pending !! Scenario.phone = Some Scenario.issued
  ∧ text_of (Scenario.says "482913") = Pending.code Scenario.issued
  ∧ run (Scenario.at_time 601000 (Scenario.backend_with [] (Resolved tt)))
        (handleMessage (Scenario.says "482913")) (fresh Scenario.pending)
    = ({| stores := Scenario.verified;
          outbox := [(Scenario.phone, VerificationSuccessful "alice")] |},
       Some tt).
Proof. repeat split. Qed.

(** C3, amended.  For a phone with a pending verification, a six-digit
    message, matching or not, submitted when [now - issuedAt] is more than
    600000 ms gets the reply 'Verification code expired. Please start
    over', and the pending entry of the phone is deleted; the other
    entries and stores stay.  At 600000 ms or less, exactly 600000
    included, the code is still valid: the one reply is not the expired
    one, a matching code verifies the phone and removes its pending entry,
    and a code that does not match changes no store. *)
Theorem expired_code_rejected st message storedData :
  verifiedUsers st !! from message = None →
  verificationCodes st !! from message = Some storedData →
  is_code (text_of message) = true →
  ∀ env,
    (600000 < now env - Pending.timestamp storedData →
     run env (handleMessage message) (fresh st)
     = ({| stores := with_verificationCodes (delete (from message)) st;
           outbox := [(from message, CodeExpired)] |}, Some tt)
     ∧ verificationCodes (stores (run env (handleMessage message) (fresh st)).1)
         !! from message = None)
    ∧ (now env - Pending.timestamp storedData ≤ 600000 →
       (∃ text,
           outbox (run env (handleMessage message) (fresh st)).1
           = [(from message, text)]
           ∧ text ≠ CodeExpired)
       ∧ (text_of message = Pending.code storedData →
          verifiedUsers (stores (run env (handleMessage message) (fresh st)).1)
            !! from message = Some (Pending.username storedData)
          ∧ verificationCodes
              (stores (run env (handleMessage message) (fresh st)).1)
              !! from message = None)
       ∧ (text_of message ≠ Pending.code storedData →
          stores (run env (handleMessage message) (fresh st)).1 = st)).
Proof.
  intros Hv Hp Hc env.
  rewrite (dispatch_code env (fresh st) message storedData Hv Hp Hc).
  split.
  - intros Ht. rewrite (code_expired env (fresh st) _ _ storedData Hp Ht).
    split; [reflexivity | apply lookup_delete_eq].
  - intros Ht.
    destruct (String.eqb_spec (text_of message) (Pending.code storedData))
      as [Hm | Hm].
    + rewrite (code_match env (fresh st) _ _ storedData Hp Ht Hm).
      cbn [fresh stores].
      destruct (ticket_update env st (Pending.username storedData))
        as [[|[]]|]; cbn; rewrite lookup_insert_eq, lookup_delete_eq;
        (split; [eexists; split; [reflexivity | discriminate] |]);
        (split; [auto | congruence]).
    + rewrite (code_mismatch env (fresh st) _ _ storedData Hp Ht Hm).
      split; [eexists; split; [reflexivity | discriminate] |].
      split; [congruence | reflexivity].
Qed.

Lemma expired_code_rejected_witness :
  (run (Scenario.at_time 601001 Scenario.down)
       (handleMessage (Scenario.says "482913")) (fresh Scenario.pending)
   = ({| stores := with_verificationCodes (delete Scenario.phone) Scenario.pending;
         outbox := [(Scenario.phone, CodeExpired)] |}, Some tt)
   ∧ verificationCodes
       (stores (run (Scenario.at_time 601001 Scenario.down)
                    (handleMessage (Scenario.says "482913"))
                    (fresh Scenario.pending)).1)
       !! Scenario.phone = None)
  ∧ (verifiedUsers
       (stores (run (Scenario.at_time 601000 Scenario.down)
                    (handleMessage (Scenario.says "482913"))
                    (fresh Scenario.pending)).1)
       !! Scenario.phone = Some "alice"
     ∧ verificationCodes
         (stores (run (Scenario.at_time 601000 Scenario.down)
                      (handleMessage (Scenario.says "482913"))
                      (fresh Scenario.pending)).1)
         !! Scenario.phone = None).
Proof.
  assert (verifiedUsers Scenario.pending !! from (Scenario.says "482913") = None)
    as Hv by reflexivity.
  assert (verificationCodes Scenario.pending !! from (Scenario.says "482913")
          = Some Scenario.issued) as Hp by reflexivity.
  assert (is_code (text_of (Scenario.says "482913")) = true) as Hc
    by reflexivity.
  split.
  - apply (expired_code_rejected Scenario.pending (Scenario.says "482913")
             Scenario.issued Hv Hp Hc (Scenario.at_time 601001 Scenario.down)).
    vm_compute. reflexivity.
  - apply (expired_code_rejected Scenario.pending (Scenario.says "482913")
             Scenario.issued Hv Hp Hc (Scenario.at_time 601000 Scenario.down)).
    + vm_compute. discriminate.
    + reflexivity.
Defined.

(** C1, as stated, fails when the ticket update is rejected: the matching
    code 482913, submitted in time, marks the phone verified, and the user
    is sent 'Could not complete verification', not the success text. *)
Lemma update_failure_reported :
  run (Scenario.at_time 5000 (Scenario.backend_with [] Rejected))
      (handleMessage (Scenario.says "482913")) (fresh Scenario.pending)
  = ({| stores := {| verificationCodes := ∅;
                     verifiedUsers := {[ Scenario.phone := "alice" ]};
                     pendingTickets := {[ "alice" := Js.Str "T1" ]} |};
        outbox := [(Scenario.phone, CouldNotComplete)] |},
     Some tt).
Proof. reflexivity. Qed.

(** C1, amended.  If the code submitted by a pending phone matches the
    stored code within the validity window, the phone is verified and its
    pending entry removed whatever the ticket update does, and exactly one
    text is sent: the verification-success text when no ticket update is
    made or the update call returns, and 'Could not complete verification'
    when the update call throws. *)
Theorem match_verifies env st message storedData :
  verifiedUsers st !! from message = None →
  verificationCodes st !! from message = Some storedData →
  is_code (text_of message) = true →
  text_of message = Pending.code storedData →
  now env - Pending.timestamp storedData ≤ 600000 →
  let w' := (run env (handleMessage message) (fresh st)).1 in
  verifiedUsers (stores w') !! from message = Some (Pending.username storedData)
  ∧ verificationCodes (stores w') !! from message = None
  ∧ outbox w'
    = [(from message,
        match ticket_update env st (Pending.username storedData) with
        | Some Rejected => CouldNotComplete
        | _ => VerificationSuccessful (Pending.username storedData)
        end)].
Proof.
  intros Hv Hp Hc Hm Ht w'. subst w'.
  rewrite (dispatch_code env (fresh st) message storedData Hv Hp Hc).
  rewrite (code_match env (fresh st) _ _ storedData Hp Ht Hm).
  cbn [fresh stores].
  destruct (ticket_update env st (Pending.username storedData)) as [[|[]]|];
    cbn; rewrite lookup_insert_eq, lookup_delete_eq; auto.
Qed.

Lemma match_verifies_witness :
  verifiedUsers
    (stores (run (Scenario.at_time 5000 (Scenario.backend_with [] (Resolved tt)))
                 (handleMessage (Scenario.says "482913"))
                 (fresh Scenario.pending)).1)
    !! Scenario.phone = Some "alice"
  ∧ verificationCodes
      (stores (run (Scenario.at_time 5000 (Scenario.backend_with [] (Resolved tt)))
                   (handleMessage (Scenario.says "482913"))
                   (fresh Scenario.pending)).1)
      !! Scenario.phone = None
  ∧ outbox (run (Scenario.at_time 5000 (Scenario.backend_with [] (Resolved tt)))
                (handleMessage (Scenario.says "482913"))
                (fresh Scenario.pending)).1
    = [(Scenario.phone, VerificationSuccessful "alice")].
Proof.
  apply (match_verifies
           (Scenario.at_time 5000 (Scenario.backend_with [] (Resolved tt)))
           Scenario.pending (Scenario.says "482913") Scenario.issued).
  - reflexivity.
  - reflexivity.
  - reflexivity.
  - reflexivity.
  - vm_compute. discriminate.
Defined.

(** ** Identifier submissions *)

(** C6.  If the user lookup is rejected, or the ticket creation is rejected
    or answers a non-zero error code, while an identifier submission is
    handled, then no store changes (no [verificationCodes] entry is
    stored, and an unknown phone stays unknown) and the user is sent 'Could
    not initiate verification. Please try again later'. *)
Theorem failed_submission_changes_nothing env st phone username :
  (backend env GetUsers = Rejected
   ∨ ∃ list user,
       backend env GetUsers = Resolved list
       ∧ find (identifies username) list = Some user
       ∧ (backend env (PostTicketsAdd (User.username user)) = Rejected
          ∨ ∃ ticketResponse,
              backend env (PostTicketsAdd (User.username user))
              = Resolved ticketResponse
              ∧ Js.strict_neq_zero (added_error_code ticketResponse) = true)) →
  run env (handleUsernameSubmission phone username) (fresh st)
  = ({| stores := st; outbox := [(phone, CouldNotInitiate)] |}, Some tt)
  ∧ (is_unknown st phone →
     is_unknown
       (stores (run env (handleUsernameSubmission phone username) (fresh st)).1)
       phone).
Proof.
  intros H.
  assert (run env (handleUsernameSubmission phone username) (fresh st)
          = ({| stores := st; outbox := [(phone, CouldNotInitiate)] |}, Some tt))
    as E.
  { destruct H as [Hu | (list & user & Hl & Hf & [Ht | (r & Ht & He)])].
    - apply (submission_lookup_rejected env (fresh st)), Hu.
    - apply (submission_ticket_rejected env (fresh st) phone _ list Hl user Hf Ht).
    - apply (submission_ticket_error env (fresh st) phone _ list Hl user Hf r Ht He). }
  rewrite E. split; [reflexivity | trivial].
Qed.

Lemma failed_submission_changes_nothing_witness :
  run (Scenario.at_time 1000 Scenario.down)
      (handleUsernameSubmission Scenario.phone "alice") (fresh no_stores)
  = ({| stores := no_stores;
        outbox := [(Scenario.phone, CouldNotInitiate)] |}, Some tt)
  ∧ (is_unknown no_stores Scenario.phone →
     is_unknown
       (stores (run (Scenario.at_time 1000 Scenario.down)
                    (handleUsernameSubmission Scenario.phone "alice")
                    (fresh no_stores)).1)
       Scenario.phone).
Proof.
  apply (failed_submission_changes_nothing
           (Scenario.at_time 1000 Scenario.down) no_stores Scenario.phone "alice").
  left. reflexivity.
Defined.

(** C7, as stated, fails on the white space around a body.  For the
    pending phone of the scenario, the body of a space and 482913 is not
    empty and is not a six-character string of digits, yet it is handled
    as the code: the phone is verified, the one request is the ticket
    update and no user lookup is made.  A body of white space only is not
    empty either, and it gets no reply and changes nothing. *)
Lemma padded_body_while_pending :
  verificationCodes Scenario.pending !! Scenario.phone = Some Scenario.issued
  ∧ is_code " 482913" = false
  ∧ run (Scenario.at_time 5000
           (Scenario.backend_with [Scenario.alice] (Resolved tt)))
        (handleMessage (Scenario.says " 482913")) (fresh Scenario.pending)
    = ({| stores := Scenario.verified;
          outbox := [(Scenario.phone, VerificationSuccessful "alice")] |},
       Some tt)
  ∧ requests (Scenario.at_time 5000
                (Scenario.backend_with [Scenario.alice] (Resolved tt)))
             (handleMessage (Scenario.says " 482913")) (fresh Scenario.pending)
    = [PostTicketsUpdate (Js.Str "T1")]
  ∧ is_code "   " = false
  ∧ run (Scenario.at_time 5000
           (Scenario.backend_with [Scenario.alice] (Resolved tt)))
        (handleMessage (Scenario.says "   ")) (fresh Scenario.pending)
    = (fresh Scenario.pending, Some tt).
Proof. repeat split. Qed.

(** C7, amended.  For a phone with a pending verification, a message whose
    body, with the white space before and after it taken away, is a text
    that is not empty and is not six digits is handled as an identifier
    submission of that text; when the lookup finds the user and the ticket
    is opened, the pending entry of the phone is replaced by the new code,
    username and timestamp, whatever the age of the old entry. *)
Theorem resubmission_overwrites env st message old before text after :
  verifiedUsers st !! from message = None →
  verificationCodes st !! from message = Some old →
  body message = Some (before ++ text ++ after) →
  Js.all_space before = true →
  Js.all_space after = true →
  no_outer_space text = true →
  text ≠ "" →
  is_code text = false →
  text_of message = text
  ∧ run env (handleMessage message) (fresh st)
    = run env (handleUsernameSubmission (from message) text) (fresh st)
  ∧ ∀ list user ticketResponse,
      backend env GetUsers = Resolved list →
      find (identifies text) list = Some user →
      backend env (PostTicketsAdd (User.username user)) = Resolved ticketResponse →
      Js.strict_neq_zero (added_error_code ticketResponse) = false →
      verificationCodes (stores (run env (handleMessage message) (fresh st)).1)
        !! from message
      = Some {| Pending.code := verificationCode_of (draw env);
                Pending.username := User.username user;
                Pending.timestamp := now env |}.
Proof.
  intros Hv Hp Hbody Hb Ha Ht Hne Hc.
  assert (text_of message = text) as Etext
    by (unfold text_of; rewrite Hbody; apply trim_padded; assumption).
  assert (run env (handleMessage message) (fresh st)
          = run env (handleUsernameSubmission (from message) text) (fresh st))
    as E.
  { rewrite <- Etext. apply dispatch_username; [exact Hv | | ].
    - right. rewrite Etext. exact Hc.
    - rewrite Etext. exact Hne. }
  split; [exact Etext |]. split; [exact E |].
  intros list user r Hl Hf Hr He. rewrite E.
  rewrite (submission_issued env _ _ _ list Hl user Hf r Hr He).
  cbn. apply lookup_insert_eq.
Qed.

Lemma resubmission_overwrites_witness :
  text_of (Scenario.says (Scenario.blank ++ "alice@example.com" ++ " "))
  = "alice@example.com"
  ∧ run (Scenario.at_time 5000 (Scenario.backend_with [Scenario.alice] (Resolved tt)))
        (handleMessage
           (Scenario.says (Scenario.blank ++ "alice@example.com" ++ " ")))
        (fresh Scenario.pending)
    = run (Scenario.at_time 5000 (Scenario.backend_with [Scenario.alice] (Resolved tt)))
          (handleUsernameSubmission Scenario.phone "alice@example.com")
          (fresh Scenario.pending)
  ∧ verificationCodes
      (stores (run (Scenario.at_time 5000
                      (Scenario.backend_with [Scenario.alice] (Resolved tt)))
                   (handleMessage
                      (Scenario.says
                         (Scenario.blank ++ "alice@example.com" ++ " ")))
                   (fresh Scenario.pending)).1)
      !! Scenario.phone
    = Some {| Pending.code := "482913"; Pending.username := "alice";
              Pending.timestamp := 5000 |}.
Proof.
  destruct (resubmission_overwrites
              (Scenario.at_time 5000
                 (Scenario.backend_with [Scenario.alice] (Resolved tt)))
              Scenario.pending
              (Scenario.says (Scenario.blank ++ "alice@example.com" ++ " "))
              Scenario.issued Scenario.blank "alice@example.com" " ")
    as (T & E & K).
  - reflexivity.
  - reflexivity.
  - reflexivity.
  - reflexivity.
  - reflexivity.
  - reflexivity.
  - discriminate.
  - reflexivity.
  - split; [exact T |]. split; [exact E |].
    apply (K [Scenario.alice] Scenario.alice
             {| added_error_code := Js.Num 0; ticket_id := Js.Str "T1" |});
      reflexivity.
Defined.

(** C4, as stated, fails: the unknown phone that sends 123456 is answered
    by the identifier flow, which here finds a user of that name, opens a
    ticket, stores a pending entry and sends the code. *)
Lemma six_digits_from_unknown_phone :
  is_unknown no_stores Scenario.phone
  ∧ is_code (text_of (Scenario.says "123456")) = true
  ∧ run (Scenario.at_time 1000 (Scenario.backend_with [Scenario.digits] (Resolved tt)))
        (handleMessage (Scenario.says "123456")) (fresh no_stores)
    = ({| stores :=
            {| verificationCodes :=
                 {[ Scenario.phone :=
                      {| Pending.code := "482913"; Pending.username := "123456";
                         Pending.timestamp := 1000 |} ]};
               verifiedUsers := ∅;
               pendingTickets := {[ "123456" := Js.Str "T1" ]} |};
          outbox := [(Scenario.phone, VerificationCodeSent "123456" "482913")] |},
       Some tt).
Proof. repeat split. Qed.

(** C4, amended.  If an unverified phone with no pending verification
    entry sends a message of exactly six digits, the message is handled as
    an identifier submission, and the one text sent, if any is, is not 'No
    active verification request found': [handleMessage] calls
    [handleVerificationCode] only for a phone that has a pending entry. *)
Theorem code_without_pending_is_identifier env st message :
  verifiedUsers st !! from message = None →
  verificationCodes st !! from message = None →
  is_code (text_of message) = true →
  run env (handleMessage message) (fresh st)
  = run env (handleUsernameSubmission (from message) (text_of message)) (fresh st)
  ∧ ∃ text,
      outbox (run env (handleMessage message) (fresh st)).1
      = [(from message, text)]
      ∧ text ≠ NoActiveRequest.
Proof.
  intros Hv Hp Hc.
  assert (text_of message ≠ "") as Hne
    by (intros E; rewrite E in Hc; discriminate).
  assert (run env (handleMessage message) (fresh st)
          = run env (handleUsernameSubmission (from message) (text_of message))
                (fresh st)) as E
    by (apply dispatch_username; auto).
  split; [exact E |]. rewrite E.
  destruct (backend env GetUsers) as [|list] eqn:Hl.
  { rewrite submission_lookup_rejected by exact Hl. eexists; split; [reflexivity | discriminate]. }
  destruct (find (identifies (text_of message)) list) as [user|] eqn:Hf.
  2: { rewrite (submission_not_found env _ _ _ list Hl Hf).
       eexists; split; [reflexivity | discriminate]. }
  destruct (backend env (PostTicketsAdd (User.username user))) as [|r] eqn:Ht.
  { rewrite (submission_ticket_rejected env _ _ _ list Hl user Hf Ht).
    eexists; split; [reflexivity | discriminate]. }
  destruct (Js.strict_neq_zero (added_error_code r)) eqn:He.
  - rewrite (submission_ticket_error env _ _ _ list Hl user Hf r Ht He).
    eexists; split; [reflexivity | discriminate].
  - rewrite (submission_issued env _ _ _ list Hl user Hf r Ht He).
    eexists; split; [reflexivity | discriminate].
Qed.

Lemma code_without_pending_is_identifier_witness :
  run (Scenario.at_time 1000 Scenario.down)
      (handleMessage (Scenario.says "123456")) (fresh no_stores)
  = run (Scenario.at_time 1000 Scenario.down)
        (handleUsernameSubmission Scenario.phone "123456") (fresh no_stores)
  ∧ ∃ text,
      outbox (run (Scenario.at_time 1000 Scenario.down)
                  (handleMessage (Scenario.says "123456")) (fresh no_stores)).1
      = [(Scenario.phone, text)]
      ∧ text ≠ NoActiveRequest.
Proof.
  apply (code_without_pending_is_identifier
           (Scenario.at_time 1000 Scenario.down) no_stores
           (Scenario.says "123456")); reflexivity.
Defined.

(** [handleVerificationCode] itself, called for a phone without a pending
    entry, sends 'No active verification request found' and changes no
    store. *)
Lemma no_active_request_is_behind_the_dispatch env st phone code :
  verificationCodes st !! phone = None →
  run env (handleVerificationCode phone code) (fresh st)
  = ({| stores := st; outbox := [(phone, NoActiveRequest)] |}, Some tt).
Proof. intros Hp. apply (code_no_entry env (fresh st)), Hp. Qed.

(** ** The trimmed body *)

(** C10.  The body is trimmed of the white space before and after it
    before the dispatch: whatever white space surrounds a text, the text
    that [handleMessage] dispatches on is the text without it, and the
    message is handled as the one whose body is that text.  So a message
    whose body is absent or made of white space only is, for an unverified
    phone, handled with no reply and no change of the stores, and, for a
    verified phone, answered with the default greeting. *)
Theorem body_is_trimmed_before_dispatch env message before text after :
  default "" (body message) = before ++ text ++ after →
  Js.all_space before = true →
  Js.all_space after = true →
  no_outer_space text = true →
  text_of message = text
  ∧ handleMessage message
    = handleMessage {| from := from message; body := Some text;
                       isGroupMsg := isGroupMsg message |}
  ∧ (text = "" →
     ∀ st,
       (verifiedUsers st !! from message = None →
        run env (handleMessage message) (fresh st) = (fresh st, Some tt))
       ∧ (∀ u, verifiedUsers st !! from message = Some u →
          run env (handleMessage message) (fresh st)
          = ({| stores := st; outbox := [(from message, Hello u)] |}, Some tt))).
Proof.
  intros Hbody Hb Ha Ht.
  assert (text_of message = text) as E
    by (unfold text_of; rewrite Hbody; apply trim_padded; assumption).
  split; [exact E |]. split.
  - unfold handleMessage. rewrite E. unfold text_of.
    cbn [from body default from_option id]. rewrite (trim_fixed text Ht).
    reflexivity.
  - intros -> st. split.
    + intros Hv. apply dispatch_nothing; assumption.
    + intros u Hv. rewrite (dispatch_verified env (fresh st) message u Hv).
      rewrite E. unfold handleVerifiedUser. rewrite run_read.
      cbn [fresh stores]. rewrite Hv. reflexivity.
Qed.

Lemma body_is_trimmed_before_dispatch_witness :
  text_of (Scenario.says (Scenario.blank ++ "" ++ " ")) = ""
  ∧ run (Scenario.at_time 5000 Scenario.down)
        (handleMessage (Scenario.says (Scenario.blank ++ "" ++ " ")))
        (fresh Scenario.pending)
    = (fresh Scenario.pending, Some tt)
  ∧ run (Scenario.at_time 5000 Scenario.down)
        (handleMessage (Scenario.says (Scenario.blank ++ "" ++ " ")))
        (fresh Scenario.verified)
    = ({| stores := Scenario.verified;
          outbox := [(Scenario.phone, Hello "alice")] |}, Some tt).
Proof.
  destruct (body_is_trimmed_before_dispatch
              (Scenario.at_time 5000 Scenario.down)
              (Scenario.says (Scenario.blank ++ "" ++ " "))
              Scenario.blank "" " ") as (T & _ & B).
  - reflexivity.
  - reflexivity.
  - reflexivity.
  - reflexivity.
  - split; [exact T |]. split.
    + apply (proj1 (B eq_refl Scenario.pending)). reflexivity.
    + apply (proj2 (B eq_refl Scenario.verified) "alice"). reflexivity.
Defined.

Example help_with_space_around :
  text_of (Scenario.says (Scenario.blank ++ "/help" ++ Scenario.blank)) = "/help"
  ∧ run (Scenario.at_time 5000 Scenario.down)
        (handleMessage (Scenario.says (Scenario.blank ++ "/help" ++ Scenario.blank)))
        (fresh Scenario.verified)
    = ({| stores := Scenario.verified;
          outbox := [(Scenario.phone, AccountHelp "alice")] |}, Some tt).
Proof. split; reflexivity. Qed.

Example blank_to_verified :
  run (Scenario.at_time 5000 Scenario.down)
      (handleMessage {| from := Scenario.phone; body := None; isGroupMsg := false |})
      (fresh Scenario.verified)
  = ({| stores := Scenario.verified;
        outbox := [(Scenario.phone, Hello "alice")] |}, Some tt).
Proof. reflexivity. Qed.

(** ** Commands of a verified user *)

(** C8: the code at the input the claim is about.  A verified user who
    sends the order command with no order id, in any letter case, gets the
    default greeting: the trimmed text does not start with the command
    followed by a space, so the branch that sends 'Please provide an order
    ID' is not reached. *)
Theorem bare_order_greets env st message u :
  verifiedUsers st !! from message = Some u →
  Js.toLowerCase (text_of message) = "/order" →
  run env (handleMessage message) (fresh st)
  = ({| stores := st; outbox := [(from message, Hello u)] |}, Some tt).
Proof.
  intros Hv Hm. rewrite (dispatch_verified env (fresh st) message u Hv).
  unfold handleVerifiedUser. rewrite run_read. cbn [fresh stores].
  rewrite Hv, Hm. reflexivity.
Qed.

Lemma bare_order_greets_witness :
  run (Scenario.at_time 5000 Scenario.down)
      (handleMessage (Scenario.says "/order ")) (fresh Scenario.verified)
  = ({| stores := Scenario.verified;
        outbox := [(Scenario.phone, Hello "alice")] |}, Some tt).
Proof.
  apply (bare_order_greets (Scenario.at_time 5000 Scenario.down)
           Scenario.verified (Scenario.says "/order ") "alice"); reflexivity.
Defined.

(** The usage text is sent when two spaces follow the command, and the
    order id is what stands between the first and the second space. *)
Example order_two_spaces :
  run (Scenario.at_time 5000 Scenario.down)
      (handleMessage (Scenario.says "/order  12345")) (fresh Scenario.verified)
  = ({| stores := Scenario.verified;
        outbox := [(Scenario.phone, ProvideOrderId)] |}, Some tt).
Proof. reflexivity. Qed.

Example order_id_token :
  advance 5000 0 (handleMessage (Scenario.says "/ORDER 12345 please"))
          (fresh Scenario.verified)
  = advance 5000 0 (handleVerifiedUser Scenario.phone "/ORDER 12345 please")
            (fresh Scenario.verified)
  ∧ ∃ k, (advance 5000 0 (handleMessage (Scenario.says "/ORDER 12345 please"))
                  (fresh Scenario.verified)).2
         = Vis (Request (GetOrder "12345")) k.
Proof. split; [reflexivity | eexists; reflexivity]. Qed.

(** ** The verification code *)

Lemma randomInt_range min max draw :
  min < max → min ≤ Js.randomInt min max draw < max.
Proof.
  intros H. unfold Js.randomInt.
  pose proof (Z.mod_pos_bound draw (max - min)). lia.
Qed.

(** Every integer of the interval is drawn. *)
Lemma randomInt_onto min max n :
  min ≤ n < max → Js.randomInt min max (n - min) = n.
Proof.
  intros H. unfold Js.randomInt. rewrite Z.mod_small by lia. lia.
Qed.

Lemma digit_cases d :
  0 ≤ d ≤ 9 →
  d = 0 ∨ d = 1 ∨ d = 2 ∨ d = 3 ∨ d = 4 ∨ d = 5 ∨ d = 6 ∨ d = 7 ∨ d = 8 ∨ d = 9.
Proof. lia. Qed.

Lemma digit_char_is_digit d : 0 ≤ d ≤ 9 → Js.is_digit (Js.digit_char d) = true.
Proof.
  intros H. destruct (digit_cases d H) as [-> | [-> | [-> | [-> | [-> | [-> | [-> | [-> | [-> | ->]]]]]]]]];
    reflexivity.
Qed.

Lemma digit_char_inj d e :
  0 ≤ d ≤ 9 → 0 ≤ e ≤ 9 → Js.digit_char d = Js.digit_char e → d = e.
Proof.
  intros Hd He H. unfold Js.digit_char in H.
  apply (f_equal N_of_ascii) in H.
  rewrite !N_ascii_embedding in H by lia. lia.
Qed.

(** The decimal digits of a six-digit number, written out. *)
Lemma toString_six n :
  100000 ≤ n < 1000000 →
  Js.Number_toString n
  = String (Js.digit_char (n / 100000 mod 10))
      (String (Js.digit_char (n / 10000 mod 10))
         (String (Js.digit_char (n / 1000 mod 10))
            (String (Js.digit_char (n / 100 mod 10))
               (String (Js.digit_char (n / 10 mod 10))
                  (String (Js.digit_char (n mod 10)) EmptyString))))).
Proof.
  intros H. unfold Js.Number_toString.
  replace (n <? 0) with false by (symmetry; apply Z.ltb_ge; lia).
  assert (16 ≤ Z.log2 n) as Hlog
    by (change 16 with (Z.log2 100000); apply Z.log2_le_mono; lia).
  destruct (Z.to_nat (Z.log2 n)) as [|[|[|[|[|[|f]]]]]] eqn:E; try lia.
  assert (n / 10 / 10 = n / 100) as E2 by (rewrite Z.div_div by lia; reflexivity).
  assert (n / 100 / 10 = n / 1000) as E3 by (rewrite Z.div_div by lia; reflexivity).
  assert (n / 1000 / 10 = n / 10000) as E4 by (rewrite Z.div_div by lia; reflexivity).
  assert (n / 10000 / 10 = n / 100000) as E5 by (rewrite Z.div_div by lia; reflexivity).
  cbn [Js.digits_onto].
  replace (n <? 10) with false by (symmetry; apply Z.ltb_ge; lia).
  replace (n / 10 <? 10) with false
    by (symmetry; apply Z.ltb_ge; apply Z.div_le_lower_bound; lia).
  rewrite E2.
  replace (n / 100 <? 10) with false
    by (symmetry; apply Z.ltb_ge; apply Z.div_le_lower_bound; lia).
  rewrite E3.
  replace (n / 1000 <? 10) with false
    by (symmetry; apply Z.ltb_ge; apply Z.div_le_lower_bound; lia).
  rewrite E4.
  replace (n / 10000 <? 10) with false
    by (symmetry; apply Z.ltb_ge; apply Z.div_le_lower_bound; lia).
  rewrite E5.
  replace (n / 100000 <? 10) with true
    by (symmetry; apply Z.ltb_lt; apply Z.div_lt_upper_bound; lia).
  reflexivity.
Qed.

(** C5: the generator as the code has it.  Every code drawn is a string of
    exactly six ASCII digits whose first digit is not zero; its value lies
    in [100000, 999998], every value of that interval is drawn, and no draw
    gives 999999, the upper bound of [crypto.randomInt] being excluded. *)
Theorem verificationCode_range draw :
  String.length (verificationCode_of draw) = 6%nat
  ∧ Js.test_digits (verificationCode_of draw) = true
  ∧ Js.first (verificationCode_of draw) ≠ Some "0"%char
  ∧ 100000 ≤ Js.randomInt 100000 999999 draw ≤ 999998
  ∧ verificationCode_of draw ≠ "999999"
  ∧ ∀ n, 100000 ≤ n ≤ 999998 → ∃ d, Js.randomInt 100000 999999 d = n.
Proof.
  pose proof (randomInt_range 100000 999999 draw ltac:(lia)) as Hr.
  unfold verificationCode_of.
  set (n := Js.randomInt 100000 999999 draw) in *.
  rewrite (toString_six n) by lia.
  assert (∀ k, 0 < k → 0 ≤ n / k mod 10 ≤ 9) as Hd
    by (intros k Hk; pose proof (Z.mod_pos_bound (n / k) 10); lia).
  assert (0 ≤ n mod 10 ≤ 9) as Hd0 by (pose proof (Z.mod_pos_bound n 10); lia).
  split; [reflexivity |]. split; [| split; [| split; [lia | split]]].
  - cbn. rewrite !digit_char_is_digit by (apply Hd; lia || exact Hd0).
    rewrite digit_char_is_digit by exact Hd0. reflexivity.
  - cbn. intros [= E]. change "0"%char with (Js.digit_char 0) in E.
    apply digit_char_inj in E; [| apply Hd; lia | lia].
    assert (1 ≤ n / 100000) by (apply Z.div_le_lower_bound; lia).
    assert (n / 100000 < 10) by (apply Z.div_lt_upper_bound; lia).
    rewrite Z.mod_small in E by lia. lia.
  - change "999999" with
      (String (Js.digit_char 9) (String (Js.digit_char 9) (String (Js.digit_char 9)
        (String (Js.digit_char 9) (String (Js.digit_char 9)
          (String (Js.digit_char 9) EmptyString)))))).
    intros [= E5 E4 E3 E2 E1 E0].
    apply digit_char_inj in E0; [| exact Hd0 | lia].
    apply digit_char_inj in E1; [| apply Hd; lia | lia].
    apply digit_char_inj in E2; [| apply Hd; lia | lia].
    apply digit_char_inj in E3; [| apply Hd; lia | lia].
    apply digit_char_inj in E4; [| apply Hd; lia | lia].
    apply digit_char_inj in E5; [| apply Hd; lia | lia].
    clear Hd Hd0. Z.div_mod_to_equations. lia.
  - intros m Hm. exists (m - 100000). apply randomInt_onto. lia.
Qed.

(** ** The state of a phone, one message at a time *)

Lemma verified_user_stores env phone msg w :
  stores (run env (handleVerifiedUser phone msg) w).1 = stores w.
Proof.
  unfold handleVerifiedUser. rewrite run_read.
  destruct (String.eqb (Js.toLowerCase msg) "/help"); [reflexivity |].
  destruct (Js.startsWith (Js.toLowerCase msg) "/order "); [| reflexivity].
  destruct (Js.split_space msg !! 1%nat) as [[|c orderId]|]; try reflexivity.
  cbn. destruct (backend env (GetOrder (String c orderId))) as [|response];
    [reflexivity |].
  cbn. destruct (Js.strict_neq_zero (order_error_code response)); reflexivity.
Qed.















(** ** The state of a phone on the event loop *)


(** Serving a message to completion is one schedule of the loop: the
    handler is given each answer as soon as it awaits it. *)
Lemma run_is_a_schedule env (p : Prog unit) w ps :
  ∃ evs,
    loop_run (park (advance (now env) (draw env) p w) ps) evs
             {| world := (run env p w).1; parked := ps |}.
Proof.
  revert w. induction p as [a | | X e k IH]; intros w.
  - exists []. apply loop_done.
  - exists []. apply loop_done.
  - destruct e as [| s | | min max | to text | c];
      try (cbn; apply IH).
    destruct (IH (backend env c) w) as [evs Hevs].
    exists (Settles (now env) (draw env) (length ps) c (backend env c) :: evs).
    pose proof (loop_settled (now env) (draw env) c (backend env c) k w ps [])
      as Hstep.
    rewrite app_nil_r in Hstep.
    eapply loop_next; [exact Hstep | exact Hevs].
Qed.

Lemma serve1_is_a_schedule w em :
  ∃ evs, loop_run {| world := w; parked := [] |}
                  (Arrives (now em.1) (draw em.1) em.2 :: evs)
                  {| world := serve1 w em; parked := [] |}.
Proof.
  destruct (run_is_a_schedule em.1 (onMessage em.2) w []) as [evs H].
  exists evs. eapply loop_next; [apply loop_message | exact H].
Qed.

(** * Further properties of the handlers *)

(** ** What one message can do *)

Lemma verified_user_replies env phone msg w :
  ∃ r, r ≠ ErrorOccurred
       ∧ run env (handleVerifiedUser phone msg) w = (sent w phone r, Some tt).
Proof.
  unfold handleVerifiedUser. rewrite run_read.
  destruct (String.eqb (Js.toLowerCase msg) "/help");
    [eexists; split; [| reflexivity]; discriminate |].
  destruct (Js.startsWith (Js.toLowerCase msg) "/order ");
    [| eexists; split; [| reflexivity]; discriminate].
  destruct (Js.split_space msg !! 1%nat) as [[|c orderId]|];
    try (eexists; split; [| reflexivity]; discriminate).
  cbn. destruct (backend env (GetOrder (String c orderId))) as [|response];
    [eexists; split; [| reflexivity]; discriminate |].
  cbn. destruct (Js.strict_neq_zero (order_error_code response));
    eexists; (split; [| reflexivity]); discriminate.
Qed.

(** Every way [handleMessage] can end: nothing done; one text and no
    store written; the pending entry expired; the phone verified; a code
    issued. *)
Lemma handleMessage_cases env message w :
  (verifiedUsers (stores w) !! from message = None
   ∧ text_of message = ""
   ∧ run env (handleMessage message) w = (w, Some tt))
  ∨ (∃ r, r ≠ ErrorOccurred
          ∧ run env (handleMessage message) w
            = (sent w (from message) r, Some tt))
  ∨ (∃ storedData,
        verifiedUsers (stores w) !! from message = None
        ∧ verificationCodes (stores w) !! from message = Some storedData
        ∧ 600000 < now env - Pending.timestamp storedData
        ∧ run env (handleMessage message) w
          = (sent (stored w (with_verificationCodes (delete (from message))
                               (stores w)))
                  (from message) CodeExpired, Some tt))
  ∨ (∃ storedData resolved r,
        verifiedUsers (stores w) !! from message = None
        ∧ verificationCodes (stores w) !! from message = Some storedData
        ∧ is_code (text_of message) = true
        ∧ text_of message = Pending.code storedData
        ∧ now env - Pending.timestamp storedData ≤ 600000
        ∧ r ≠ ErrorOccurred
        ∧ run env (handleMessage message) w
          = (sent (stored w (verified_stores (stores w) (from message)
                               storedData resolved))
                  (from message) r, Some tt))
  ∨ (∃ list user ticketResponse,
        verifiedUsers (stores w) !! from message = None
        ∧ backend env GetUsers = Resolved list
        ∧ find (identifies (text_of message)) list = Some user
        ∧ backend env (PostTicketsAdd (User.username user))
          = Resolved ticketResponse
        ∧ Js.strict_neq_zero (added_error_code ticketResponse) = false
        ∧ run env (handleMessage message) w
          = (sent (stored w (issued_stores env (stores w) (from message) user
                               (ticket_id ticketResponse)))
                  (from message)
                  (VerificationCodeSent (User.username user)
                                        (verificationCode_of (draw env))),
             Some tt)).
Proof.
  assert (verifiedUsers (stores w) !! from message = None →
          text_of message ≠ "" →
          run env (handleMessage message) w
          = run env (handleUsernameSubmission (from message) (text_of message)) w →
          (∃ r, r ≠ ErrorOccurred
                ∧ run env (handleMessage message) w
                  = (sent w (from message) r, Some tt))
          ∨ (∃ list user ticketResponse,
                verifiedUsers (stores w) !! from message = None
                ∧ backend env GetUsers = Resolved list
                ∧ find (identifies (text_of message)) list = Some user
                ∧ backend env (PostTicketsAdd (User.username user))
                  = Resolved ticketResponse
                ∧ Js.strict_neq_zero (added_error_code ticketResponse) = false
                ∧ run env (handleMessage message) w
                  = (sent (stored w (issued_stores env (stores w) (from message)
                                       user (ticket_id ticketResponse)))
                          (from message)
                          (VerificationCodeSent (User.username user)
                                                (verificationCode_of (draw env))),
                     Some tt))) as submission.
  { intros Hv He E. rewrite E.
    destruct (backend env GetUsers) as [|list] eqn:Hl.
    { left. eexists. split; [| apply submission_lookup_rejected, Hl]. discriminate. }
    destruct (find (identifies (text_of message)) list) as [user|] eqn:Hf.
    2: { left. eexists. split; [| apply (submission_not_found env _ _ _ list Hl Hf)].
         discriminate. }
    destruct (backend env (PostTicketsAdd (User.username user))) as [|r] eqn:Ht.
    { left. eexists.
      split; [| apply (submission_ticket_rejected env _ _ _ list Hl user Hf Ht)].
      discriminate. }
    destruct (Js.strict_neq_zero (added_error_code r)) eqn:Hz.
    - left. eexists.
      split; [| apply (submission_ticket_error env _ _ _ list Hl user Hf r Ht Hz)].
      discriminate.
    - right. exists list, user, r.
      repeat (split; [first [assumption | reflexivity] |]).
      apply (submission_issued env _ _ _ list Hl user Hf r Ht Hz). }
  destruct (verifiedUsers (stores w) !! from message) as [u|] eqn:Hv.
  { right; left. rewrite (dispatch_verified env w message u Hv).
    apply verified_user_replies. }
  destruct (String.eqb_spec (text_of message) "") as [He | He].
  { left. split; [reflexivity |]. split; [exact He |].
    apply dispatch_nothing; assumption. }
  destruct (verificationCodes (stores w) !! from message) as [storedData|] eqn:Hp.
  2: { destruct (submission eq_refl He) as [H | H];
         [apply dispatch_username; auto | right; left; exact H | do 4 right; exact H]. }
  destruct (is_code (text_of message)) eqn:Hc.
  2: { destruct (submission eq_refl He) as [H | H];
         [apply dispatch_username; auto | right; left; exact H | do 4 right; exact H]. }
  rewrite (dispatch_code env w message storedData Hv Hp Hc).
  destruct (Z.lt_ge_cases 600000 (now env - Pending.timestamp storedData))
    as [Ht | Ht].
  { do 2 right; left. exists storedData. repeat (split; [auto |]).
    apply (code_expired env w _ _ storedData Hp Ht). }
  destruct (String.eqb_spec (text_of message) (Pending.code storedData))
    as [Hm | Hm].
  2: { right; left. exists InvalidCode. split; [discriminate |].
       apply (code_mismatch env w _ _ storedData Hp Ht Hm). }
  do 3 right; left.
  rewrite (code_match env w _ _ storedData Hp Ht Hm).
  destruct (ticket_update env (stores w) (Pending.username storedData))
    as [[|[]]|].
  - exists storedData, false, CouldNotComplete.
    repeat (split; [auto; discriminate |]). reflexivity.
  - exists storedData, true, (VerificationSuccessful (Pending.username storedData)).
    repeat (split; [auto; discriminate |]). reflexivity.
  - exists storedData, false, (VerificationSuccessful (Pending.username storedData)).
    repeat (split; [auto; discriminate |]). reflexivity.
Qed.

Lemma handleMessage_returns env message w :
  (run env (handleMessage message) w).2 = Some tt.
Proof.
  destruct (handleMessage_cases env message w)
    as [(_ & _ & E) | [(r & _ & E) | [(pd & _ & _ & _ & E)
       | [(pd & b & r & _ & _ & _ & _ & _ & _ & E)
       | (l & u & t & _ & _ & _ & _ & _ & E)]]]];
    rewrite E; reflexivity.
Qed.

Lemma onMessage_not_group env message w :
  isGroupMsg message = false →
  run env (onMessage message) w = run env (handleMessage message) w.
Proof.
  intros Hg. unfold onMessage. rewrite run_try_catch, Hg. cbn [negb].
  pose proof (handleMessage_returns env message w) as H.
  destruct (run env (handleMessage message) w) as [w' [[]|]];
    [reflexivity | discriminate].
Qed.

Lemma onMessage_group env message w :
  isGroupMsg message = true → run env (onMessage message) w = (w, Some tt).
Proof. intros Hg. unfold onMessage. rewrite run_try_catch, Hg. reflexivity. Qed.

(** X1.  The callback of [startBot] never throws and its catch-all never
    fires: whatever the backend does, a message is answered with at most
    one text, addressed to its sender and never 'An error occurred'.  No
    text is sent exactly when the message comes from a group, or from an
    unverified phone with an empty trimmed body; a group message changes
    nothing at all. *)
Theorem at_most_one_reply env message w :
  ∃ replies : list (string * Reply),
    (run env (onMessage message) w).2 = Some tt
    ∧ outbox (run env (onMessage message) w).1 = (outbox w ++ replies)%list
    ∧ (replies = [] ∨ ∃ r, replies = [(from message, r)] ∧ r ≠ ErrorOccurred)
    ∧ (replies = [] ↔
       isGroupMsg message = true
       ∨ (verifiedUsers (stores w) !! from message = None
          ∧ text_of message = ""))
    ∧ (isGroupMsg message = true → (run env (onMessage message) w).1 = w).
Proof.
  destruct (isGroupMsg message) eqn:Hg.
  { exists []. rewrite onMessage_group by exact Hg. cbn.
    rewrite app_nil_r. repeat split; auto. }
  rewrite onMessage_not_group by exact Hg.
  assert (∀ r, r ≠ ErrorOccurred →
               run env (handleMessage message) w
               = (sent w (from message) r, Some tt) →
               ¬ (verifiedUsers (stores w) !! from message = None
                  ∧ text_of message = "")) as answered.
  { intros r _ E [Hv He].
    rewrite (dispatch_nothing env w message Hv He) in E.
    apply (f_equal (λ x, length (outbox x.1))) in E. cbn in E.
    rewrite length_app in E. cbn in E. lia. }
  assert (∀ st r, r ≠ ErrorOccurred →
               run env (handleMessage message) w
               = (sent (stored w st) (from message) r, Some tt) →
               ¬ (verifiedUsers (stores w) !! from message = None
                  ∧ text_of message = "")) as written.
  { intros st r _ E [Hv He].
    rewrite (dispatch_nothing env w message Hv He) in E.
    apply (f_equal (λ x, length (outbox x.1))) in E. cbn in E.
    rewrite length_app in E. cbn in E. lia. }
  destruct (handleMessage_cases env message w)
    as [(Hv & He & E) | [(r & Hr & E) | [(pd & _ & _ & _ & E)
       | [(pd & b & r & _ & _ & _ & _ & _ & Hr & E)
       | (l & u & t & _ & _ & _ & _ & _ & E)]]]].
  - exists []. rewrite E. cbn. rewrite app_nil_r.
    repeat split; auto; discriminate.
  - exists [(from message, r)]. rewrite E. cbn.
    repeat split; eauto; try discriminate.
    intros [? | H]; [discriminate | destruct (answered r Hr E H)].
  - exists [(from message, CodeExpired)]. rewrite E. cbn.
    repeat split; try discriminate.
    + right. eexists. split; [reflexivity | discriminate].
    + intros [? | H]; [discriminate |].
      exfalso. refine (written _ CodeExpired _ E H). discriminate.
  - exists [(from message, r)]. rewrite E. cbn.
    repeat split; eauto; try discriminate.
    intros [? | H]; [discriminate | destruct (written _ r Hr E H)].
  - exists [(from message, VerificationCodeSent (User.username u)
                             (verificationCode_of (draw env)))].
    rewrite E. cbn. repeat split; try discriminate.
    + right. eexists. split; [reflexivity | discriminate].
    + intros [? | H]; [discriminate |].
      exfalso. refine (written _ (VerificationCodeSent _ _) _ E H). discriminate.
Qed.

(** ** The requests of one message *)

Lemma requests_read {A} env (k : Stores → Prog A) w :
  requests env (s <- trigger Read ;; k s) w = requests env (k (stores w)) w.
Proof. reflexivity. Qed.

Section Requests.

Variables (env : Env) (w : World) (message : Message).

Lemma requests_verified u :
  verifiedUsers (stores w) !! from message = Some u →
  requests env (handleMessage message) w
  = requests env (handleVerifiedUser (from message) (text_of message)) w.
Proof.
  intros Hv. unfold handleMessage, has. rewrite requests_read.
  rewrite Hv. reflexivity.
Qed.

Lemma requests_code storedData :
  verifiedUsers (stores w) !! from message = None →
  verificationCodes (stores w) !! from message = Some storedData →
  is_code (text_of message) = true →
  requests env (handleMessage message) w
  = requests env (handleVerificationCode (from message) (text_of message)) w.
Proof.
  intros Hv Hp Hc. unfold handleMessage, has. rewrite requests_read.
  rewrite Hv, Hp, Hc. reflexivity.
Qed.

Lemma requests_username :
  verifiedUsers (stores w) !! from message = None →
  verificationCodes (stores w) !! from message = None
  ∨ is_code (text_of message) = false →
  text_of message ≠ "" →
  requests env (handleMessage message) w
  = requests env (handleUsernameSubmission (from message) (text_of message)) w.
Proof.
  intros Hv Hp Hne. unfold handleMessage, has. rewrite requests_read.
  rewrite Hv.
  replace (match verificationCodes (stores w) !! from message with
           | Some _ => true | None => false end
           && is_code (text_of message)) with false
    by (destruct Hp as [-> | ->]; [reflexivity | symmetry; apply andb_false_r]).
  destruct (text_of message) as [|c r] eqn:E; [congruence | reflexivity].
Qed.

End Requests.

Lemma verified_user_requests env phone msg w :
  requests env (handleVerifiedUser phone msg) w = []
  ∨ ∃ orderId, orderId ≠ ""
               ∧ Js.split_space msg !! 1%nat = Some orderId
               ∧ requests env (handleVerifiedUser phone msg) w = [GetOrder orderId].
Proof.
  unfold handleVerifiedUser. rewrite requests_read.
  destruct (String.eqb (Js.toLowerCase msg) "/help"); [left; reflexivity |].
  destruct (Js.startsWith (Js.toLowerCase msg) "/order "); [| left; reflexivity].
  destruct (Js.split_space msg !! 1%nat) as [[|c orderId]|];
    try (left; reflexivity).
  right. exists (String c orderId). split; [discriminate |]. split; [reflexivity |].
  cbn. destruct (backend env (GetOrder (String c orderId))) as [|response];
    [reflexivity |].
  cbn. destruct (Js.strict_neq_zero (order_error_code response)); reflexivity.
Qed.

(** X2.  A message from a verified phone writes none of the three stores,
    and the only request it can send is the fetch of one order, for a
    non-empty order id: a verified phone never looks users up and never
    opens or updates a ticket. *)
Theorem verified_phone_only_fetches_orders env st message u :
  verifiedUsers st !! from message = Some u →
  stores (run env (handleMessage message) (fresh st)).1 = st
  ∧ (requests env (handleMessage message) (fresh st) = []
     ∨ ∃ orderId, orderId ≠ ""
                  ∧ requests env (handleMessage message) (fresh st)
                    = [GetOrder orderId]).
Proof.
  intros Hv. split.
  - rewrite (dispatch_verified env (fresh st) message u Hv).
    apply verified_user_stores.
  - rewrite (requests_verified env (fresh st) message u Hv).
    destruct (verified_user_requests env (from message) (text_of message)
                (fresh st)) as [E | (orderId & Hne & _ & E)]; [left; exact E |].
    right. exists orderId. split; assumption.
Qed.

Lemma verified_phone_only_fetches_orders_witness :
  stores (run (Scenario.at_time 5000 Scenario.down)
              (handleMessage (Scenario.says "/order 999"))
              (fresh Scenario.verified)).1
  = Scenario.verified
  ∧ (requests (Scenario.at_time 5000 Scenario.down)
              (handleMessage (Scenario.says "/order 999"))
              (fresh Scenario.verified) = []
     ∨ ∃ orderId, orderId ≠ ""
                  ∧ requests (Scenario.at_time 5000 Scenario.down)
                             (handleMessage (Scenario.says "/order 999"))
                             (fresh Scenario.verified)
                    = [GetOrder orderId]).
Proof.
  apply (verified_phone_only_fetches_orders (Scenario.at_time 5000 Scenario.down)
           Scenario.verified (Scenario.says "/order 999") "alice").
  reflexivity.
Defined.

Example order_999_requests :
  requests (Scenario.at_time 5000 Scenario.down)
           (handleMessage (Scenario.says "/order 999")) (fresh Scenario.verified)
  = [GetOrder "999"].
Proof. reflexivity. Qed.

(** X3.  A six-digit message from a phone with a pending verification
    reaches the backend only when it is the stored code and unexpired, and
    then with one request: the update of the ticket recorded for the
    pending username, if that ticket id is truthy.  A wrong or an expired
    code sends no request. *)
Theorem code_submission_requests env st message storedData :
  verifiedUsers st !! from message = None →
  verificationCodes st !! from message = Some storedData →
  is_code (text_of message) = true →
  requests env (handleMessage message) (fresh st)
  = if (now env - Pending.timestamp storedData <=? 600000)
       && String.eqb (text_of message) (Pending.code storedData)
    then match pendingTickets st !! Pending.username storedData with
         | Some ticketId =>
             if Js.truthy ticketId then [PostTicketsUpdate ticketId] else []
         | None => []
         end
    else [].
Proof.
  intros Hv Hp Hc.
  rewrite (requests_code env (fresh st) message storedData Hv Hp Hc).
  unfold handleVerificationCode. cbn. rewrite Hp. cbn.
  rewrite Z.leb_antisym.
  destruct (600000 <? now env - Pending.timestamp storedData); [reflexivity |].
  cbn. destruct (String.eqb (text_of message) (Pending.code storedData));
    [| reflexivity].
  cbn. destruct (pendingTickets st !! Pending.username storedData) as [ticketId|];
    [| reflexivity].
  destruct (Js.truthy ticketId); [| reflexivity].
  cbn. destruct (backend env (PostTicketsUpdate ticketId)) as [|[]]; reflexivity.
Qed.

Lemma code_submission_requests_witness :
  requests (Scenario.at_time 5000 (Scenario.backend_with [] (Resolved tt)))
           (handleMessage (Scenario.says "482913")) (fresh Scenario.pending)
  = [PostTicketsUpdate (Js.Str "T1")].
Proof.
  apply (code_submission_requests
           (Scenario.at_time 5000 (Scenario.backend_with [] (Resolved tt)))
           Scenario.pending (Scenario.says "482913") Scenario.issued);
    reflexivity.
Defined.

(** X4.  An identifier submission first lists the users; it opens a
    ticket only when the listing came back and holds a user whose username
    or email is the identifier, and then under that account's username;
    nothing else is requested. *)
Theorem submission_requests env st message :
  verifiedUsers st !! from message = None →
  verificationCodes st !! from message = None
  ∨ is_code (text_of message) = false →
  text_of message ≠ "" →
  requests env (handleMessage message) (fresh st)
  = GetUsers
    :: match backend env GetUsers with
       | Resolved list =>
           match find (identifies (text_of message)) list with
           | Some user => [PostTicketsAdd (User.username user)]
           | None => []
           end
       | Rejected => []
       end.
Proof.
  intros Hv Hp He.
  rewrite (requests_username env (fresh st) message Hv Hp He).
  unfold handleUsernameSubmission. cbn.
  destruct (backend env GetUsers) as [|list]; [reflexivity |].
  cbn. destruct (find (identifies (text_of message)) list) as [user|];
    [| reflexivity].
  cbn. destruct (backend env (PostTicketsAdd (User.username user))) as [|r];
    [reflexivity |].
  cbn. destruct (Js.strict_neq_zero (added_error_code r)); reflexivity.
Qed.

Lemma submission_requests_witness :
  requests (Scenario.at_time 1000
              (Scenario.backend_with [Scenario.alice] (Resolved tt)))
           (handleMessage (Scenario.says "alice@example.com")) (fresh no_stores)
  = [GetUsers; PostTicketsAdd "alice"].
Proof.
  apply (submission_requests
           (Scenario.at_time 1000
              (Scenario.backend_with [Scenario.alice] (Resolved tt)))
           no_stores (Scenario.says "alice@example.com")).
  - reflexivity.
  - left. reflexivity.
  - discriminate.
Defined.

(** ** What a message can change *)

Lemma onMessage_world env message w :
  (run env (onMessage message) w).1
  = if isGroupMsg message then w else (run env (handleMessage message) w).1.
Proof.
  destruct (isGroupMsg message) eqn:Hg.
  - rewrite onMessage_group by exact Hg. reflexivity.
  - rewrite onMessage_not_group by exact Hg. reflexivity.
Qed.

(** X5.  A message changes the verification state of its sender only: for
    every other phone the entries of [verificationCodes] and
    [verifiedUsers] are what they were. *)
Theorem other_phones_untouched env message w other :
  other ≠ from message →
  verificationCodes (stores (run env (onMessage message) w).1) !! other
  = verificationCodes (stores w) !! other
  ∧ verifiedUsers (stores (run env (onMessage message) w).1) !! other
    = verifiedUsers (stores w) !! other.
Proof.
  intros Hne. rewrite onMessage_world.
  destruct (isGroupMsg message); [split; reflexivity |].
  destruct (handleMessage_cases env message w)
    as [(_ & _ & E) | [(r & _ & E) | [(pd & _ & _ & _ & E)
       | [(pd & b & r & _ & _ & _ & _ & _ & _ & E)
       | (l & u & t & _ & _ & _ & _ & _ & E)]]]];
    rewrite E; cbn; try (split; reflexivity).
  - rewrite lookup_delete_ne by congruence. split; reflexivity.
  - destruct b; cbn; rewrite lookup_delete_ne, lookup_insert_ne by congruence;
      split; reflexivity.
  - rewrite lookup_insert_ne by congruence. split; reflexivity.
Qed.

Lemma other_phones_untouched_witness :
  verificationCodes
    (stores (run (Scenario.at_time 5000 (Scenario.backend_with [] (Resolved tt)))
                 (onMessage {| from := "another@c.us"; body := Some "482913";
                               isGroupMsg := false |})
                 (fresh Scenario.pending)).1) !! Scenario.phone
  = verificationCodes (stores (fresh Scenario.pending)) !! Scenario.phone
  ∧ verifiedUsers
      (stores (run (Scenario.at_time 5000 (Scenario.backend_with [] (Resolved tt)))
                   (onMessage {| from := "another@c.us"; body := Some "482913";
                                 isGroupMsg := false |})
                   (fresh Scenario.pending)).1) !! Scenario.phone
    = verifiedUsers (stores (fresh Scenario.pending)) !! Scenario.phone.
Proof.
  apply (other_phones_untouched
           (Scenario.at_time 5000 (Scenario.backend_with [] (Resolved tt)))
           {| from := "another@c.us"; body := Some "482913"; isGroupMsg := false |}
           (fresh Scenario.pending) Scenario.phone).
  discriminate.
Defined.

(** X6.  A phone becomes verified by one thing only: a message of its own,
    not from a group, whose trimmed text is the six-digit code of its
    pending entry, received no more than 600000 ms after the entry's
    timestamp; the username recorded is the one of that entry. *)
Theorem verified_only_by_the_code env message w phone u :
  verifiedUsers (stores w) !! phone = None →
  verifiedUsers (stores (run env (onMessage message) w).1) !! phone = Some u →
  isGroupMsg message = false
  ∧ phone = from message
  ∧ ∃ storedData,
      verificationCodes (stores w) !! phone = Some storedData
      ∧ Pending.username storedData = u
      ∧ is_code (text_of message) = true
      ∧ text_of message = Pending.code storedData
      ∧ now env - Pending.timestamp storedData ≤ 600000.
Proof.
  intros Hv Hv'. rewrite onMessage_world in Hv'.
  destruct (isGroupMsg message); [congruence |].
  split; [reflexivity |].
  destruct (handleMessage_cases env message w)
    as [(_ & _ & E) | [(r & _ & E) | [(pd & _ & _ & _ & E)
       | [(pd & b & r & _ & Hp & Hc & Hm & Ht & _ & E)
       | (l & u' & t & _ & _ & _ & _ & _ & E)]]]];
    rewrite E in Hv'; cbn in Hv'; try congruence.
  assert (<[from message := Pending.username pd]> (verifiedUsers (stores w))
            !! phone = Some u) as Hi by (destruct b; exact Hv').
  destruct (decide (from message = phone)) as [<- | Hne].
  - rewrite lookup_insert_eq in Hi. split; [reflexivity |].
    exists pd. repeat split; congruence.
  - rewrite lookup_insert_ne in Hi by exact Hne. congruence.
Qed.

Lemma verified_only_by_the_code_witness :
  isGroupMsg (Scenario.says "482913") = false
  ∧ Scenario.phone = from (Scenario.says "482913")
  ∧ ∃ storedData,
      verificationCodes (stores (fresh Scenario.pending)) !! Scenario.phone
      = Some storedData
      ∧ Pending.username storedData = "alice"
      ∧ is_code (text_of (Scenario.says "482913")) = true
      ∧ text_of (Scenario.says "482913") = Pending.code storedData
      ∧ now (Scenario.at_time 5000 (Scenario.backend_with [] (Resolved tt)))
        - Pending.timestamp storedData ≤ 600000.
Proof.
  apply (verified_only_by_the_code
           (Scenario.at_time 5000 (Scenario.backend_with [] (Resolved tt)))
           (Scenario.says "482913") (fresh Scenario.pending)
           Scenario.phone "alice"); reflexivity.
Defined.

(** X7.  A pending entry appears or changes by one thing only: a message of
    that phone, while unverified, for which the user listing came back with
    a user whose username or email equals the trimmed text exactly and the
    ticket was opened without error; the entry holds the code drawn, that
    account's username and the time of the handler. *)
Theorem pending_only_by_a_found_user env message w phone entry :
  verificationCodes (stores w) !! phone ≠ Some entry →
  verificationCodes (stores (run env (onMessage message) w).1) !! phone
  = Some entry →
  phone = from message
  ∧ verifiedUsers (stores w) !! phone = None
  ∧ ∃ list user ticketResponse,
      backend env GetUsers = Resolved list
      ∧ In user list
      ∧ (User.username user = text_of message
         ∨ User.email user = text_of message)
      ∧ backend env (PostTicketsAdd (User.username user))
        = Resolved ticketResponse
      ∧ Js.strict_neq_zero (added_error_code ticketResponse) = false
      ∧ entry = {| Pending.code := verificationCode_of (draw env);
                   Pending.username := User.username user;
                   Pending.timestamp := now env |}.
Proof.
  intros Hp Hp'. rewrite onMessage_world in Hp'.
  destruct (isGroupMsg message); [congruence |].
  destruct (handleMessage_cases env message w)
    as [(_ & _ & E) | [(r & _ & E) | [(pd & _ & _ & _ & E)
       | [(pd & b & r & _ & _ & _ & _ & _ & _ & E)
       | (l & user & t & Hv & Hl & Hf & Ht & Hz & E)]]]];
    rewrite E in Hp'; cbn in Hp'; try congruence.
  - destruct (decide (from message = phone)) as [<- | Hne].
    + rewrite lookup_delete_eq in Hp'. discriminate.
    + rewrite lookup_delete_ne in Hp' by exact Hne. congruence.
  - assert (delete (from message) (verificationCodes (stores w)) !! phone
            = Some entry) as Hd by (destruct b; exact Hp').
    destruct (decide (from message = phone)) as [<- | Hne].
    + rewrite lookup_delete_eq in Hd. discriminate.
    + rewrite lookup_delete_ne in Hd by exact Hne. congruence.
  - destruct (decide (from message = phone)) as [<- | Hne].
    2: { rewrite lookup_insert_ne in Hp' by exact Hne. congruence. }
    rewrite lookup_insert_eq in Hp'. injection Hp' as <-.
    split; [reflexivity |]. split; [exact Hv |].
    exists l, user, t. apply find_some in Hf as [Hin Hid].
    unfold identifies in Hid. apply orb_true_iff in Hid.
    rewrite !String.eqb_eq in Hid. repeat split; assumption.
Qed.

Lemma pending_only_by_a_found_user_witness :
  Scenario.phone = from (Scenario.says "alice")
  ∧ verifiedUsers (stores (fresh no_stores)) !! Scenario.phone = None
  ∧ ∃ list user ticketResponse,
      backend (Scenario.at_time 1000
                 (Scenario.backend_with [Scenario.alice] (Resolved tt))) GetUsers
      = Resolved list
      ∧ In user list
      ∧ (User.username user = text_of (Scenario.says "alice")
         ∨ User.email user = text_of (Scenario.says "alice"))
      ∧ backend (Scenario.at_time 1000
                   (Scenario.backend_with [Scenario.alice] (Resolved tt)))
                (PostTicketsAdd (User.username user))
        = Resolved ticketResponse
      ∧ Js.strict_neq_zero (added_error_code ticketResponse) = false
      ∧ Scenario.issued
        = {| Pending.code :=
               verificationCode_of
                 (draw (Scenario.at_time 1000
                          (Scenario.backend_with [Scenario.alice] (Resolved tt))));
             Pending.username := User.username user;
             Pending.timestamp :=
               now (Scenario.at_time 1000
                      (Scenario.backend_with [Scenario.alice] (Resolved tt))) |}.
Proof.
  apply (pending_only_by_a_found_user
           (Scenario.at_time 1000
              (Scenario.backend_with [Scenario.alice] (Resolved tt)))
           (Scenario.says "alice") (fresh no_stores) Scenario.phone
           Scenario.issued).
  - vm_compute. discriminate.
  - reflexivity.
Defined.



(** ** From identifier to verified *)

(** The code that is issued is a code for the dispatch of
    [handleMessage]: six characters, all digits. *)
Lemma verificationCode_is_code draw : is_code (verificationCode_of draw) = true.
Proof.
  pose proof (randomInt_range 100000 999999 draw ltac:(lia)) as Hr.
  unfold verificationCode_of.
  set (n := Js.randomInt 100000 999999 draw) in *.
  rewrite (toString_six n) by lia.
  assert (∀ m, 0 ≤ m mod 10 ≤ 9) as Hd
    by (intros m; pose proof (Z.mod_pos_bound m 10); lia).
  unfold is_code. cbn. rewrite !digit_char_is_digit by apply Hd. reflexivity.
Qed.

(** X9.  Issue, then verify.  When an unverified phone sends an identifier
    that the lookup finds and the ticket is opened, and then sends back
    the code it was given no more than 600000 ms later, with the ticket
    update accepted, the phone is verified under the account's username,
    its pending entry and the ticket entry are gone (the ticket entry
    stays when its id is falsy, no update being sent), and the two texts
    sent are the code and the success text. *)
Theorem issued_code_verifies e1 e2 st m1 m2 list user ticketResponse :
  isGroupMsg m1 = false → isGroupMsg m2 = false → from m2 = from m1 →
  verifiedUsers st !! from m1 = None →
  text_of m1 ≠ "" →
  verificationCodes st !! from m1 = None ∨ is_code (text_of m1) = false →
  backend e1 GetUsers = Resolved list →
  find (identifies (text_of m1)) list = Some user →
  backend e1 (PostTicketsAdd (User.username user)) = Resolved ticketResponse →
  Js.strict_neq_zero (added_error_code ticketResponse) = false →
  text_of m2 = verificationCode_of (draw e1) →
  now e2 - now e1 ≤ 600000 →
  backend e2 (PostTicketsUpdate (ticket_id ticketResponse)) = Resolved tt →
  verifiedUsers (stores (serve [(e1, m1); (e2, m2)] (fresh st))) !! from m1
  = Some (User.username user)
  ∧ verificationCodes (stores (serve [(e1, m1); (e2, m2)] (fresh st))) !! from m1
    = None
  ∧ pendingTickets (stores (serve [(e1, m1); (e2, m2)] (fresh st)))
      !! User.username user
    = (if Js.truthy (ticket_id ticketResponse) then None
       else Some (ticket_id ticketResponse))
  ∧ outbox (serve [(e1, m1); (e2, m2)] (fresh st))
    = [(from m1, VerificationCodeSent (User.username user)
                   (verificationCode_of (draw e1)));
       (from m1, VerificationSuccessful (User.username user))].
Proof.
  intros Hg1 Hg2 Hfrom Hv He Hp Hl Hf Ht Hz Hcode Hnow Hup.
  unfold serve. cbn [foldl]. unfold serve1. cbn [fst snd].
  rewrite (onMessage_not_group e1 m1 _ Hg1).
  rewrite (dispatch_username e1 (fresh st) m1 Hv Hp He).
  rewrite (submission_issued e1 _ _ _ list Hl user Hf ticketResponse Ht Hz).
  cbn [fst].
  set (w1 := sent _ _ _).
  set (entry := {| Pending.code := verificationCode_of (draw e1);
                   Pending.username := User.username user;
                   Pending.timestamp := now e1 |}).
  assert (verifiedUsers (stores w1) !! from m2 = None) as Hv1
    by (rewrite Hfrom; exact Hv).
  assert (verificationCodes (stores w1) !! from m2 = Some entry) as Hp1
    by (rewrite Hfrom; cbn; apply lookup_insert_eq).
  assert (is_code (text_of m2) = true) as Hc1
    by (rewrite Hcode; apply verificationCode_is_code).
  rewrite (onMessage_not_group e2 m2 _ Hg2).
  rewrite (dispatch_code e2 w1 m2 entry Hv1 Hp1 Hc1).
  rewrite (code_match e2 w1 _ _ entry Hp1 Hnow Hcode).
  unfold ticket_update. cbn [Pending.username entry].
  replace (pendingTickets (stores w1) !! User.username user)
    with (Some (ticket_id ticketResponse))
    by (symmetry; cbn; apply lookup_insert_eq).
  rewrite Hfrom.
  destruct (Js.truthy (ticket_id ticketResponse)).
  - rewrite Hup. cbn.
    rewrite lookup_insert_eq, !lookup_delete_eq. auto.
  - cbn. rewrite !lookup_insert_eq, lookup_delete_eq. auto.
Qed.

Lemma issued_code_verifies_witness :
  verifiedUsers
    (stores (serve [(Scenario.at_time 1000
                       (Scenario.backend_with [Scenario.alice] (Resolved tt)),
                     Scenario.says "alice");
                    (Scenario.at_time 5000
                       (Scenario.backend_with [] (Resolved tt)),
                     Scenario.says " 482913 ")] (fresh no_stores)))
    !! Scenario.phone = Some "alice"
  ∧ verificationCodes
      (stores (serve [(Scenario.at_time 1000
                         (Scenario.backend_with [Scenario.alice] (Resolved tt)),
                       Scenario.says "alice");
                      (Scenario.at_time 5000
                         (Scenario.backend_with [] (Resolved tt)),
                       Scenario.says " 482913 ")] (fresh no_stores)))
      !! Scenario.phone = None
  ∧ pendingTickets
      (stores (serve [(Scenario.at_time 1000
                         (Scenario.backend_with [Scenario.alice] (Resolved tt)),
                       Scenario.says "alice");
                      (Scenario.at_time 5000
                         (Scenario.backend_with [] (Resolved tt)),
                       Scenario.says " 482913 ")] (fresh no_stores)))
      !! "alice" = None
  ∧ outbox (serve [(Scenario.at_time 1000
                      (Scenario.backend_with [Scenario.alice] (Resolved tt)),
                    Scenario.says "alice");
                   (Scenario.at_time 5000
                      (Scenario.backend_with [] (Resolved tt)),
                    Scenario.says " 482913 ")] (fresh no_stores))
    = [(Scenario.phone, VerificationCodeSent "alice" "482913");
       (Scenario.phone, VerificationSuccessful "alice")].
Proof.
  apply (issued_code_verifies
           (Scenario.at_time 1000
              (Scenario.backend_with [Scenario.alice] (Resolved tt)))
           (Scenario.at_time 5000 (Scenario.backend_with [] (Resolved tt)))
           no_stores (Scenario.says "alice") (Scenario.says " 482913 ")
           [Scenario.alice] Scenario.alice (Scenario.ticket "T1")).
  - reflexivity.
  - reflexivity.
  - reflexivity.
  - reflexivity.
  - discriminate.
  - left. reflexivity.
  - reflexivity.
  - reflexivity.
  - reflexivity.
  - reflexivity.
  - reflexivity.
  - vm_compute. discriminate.
  - reflexivity.
Defined.

(** X10.  Wrong codes can be retried.  Any number of six-digit messages
    from a pending phone that differ from the stored code, each within the
    600000 ms of the entry, leave the three stores as they were and get one
    'Invalid verification code' text each; so the stored code is still
    accepted after them. *)
Theorem wrong_codes_can_be_retried (attempts : list (Env * Message)) st phone
    storedData :
  verifiedUsers st !! phone = None →
  verificationCodes st !! phone = Some storedData →
  Forall (λ em : Env * Message,
            isGroupMsg em.2 = false
            ∧ from em.2 = phone
            ∧ is_code (text_of em.2) = true
            ∧ text_of em.2 ≠ Pending.code storedData
            ∧ now em.1 - Pending.timestamp storedData ≤ 600000) attempts →
  serve attempts (fresh st)
  = {| stores := st;
       outbox := map (λ _, (phone, InvalidCode)) attempts |}.
Proof.
  intros Hv Hp Hall.
  enough (∀ w, stores w = st →
               serve attempts w
               = {| stores := st;
                    outbox := (outbox w
                               ++ map (λ _, (phone, InvalidCode)) attempts)%list |})
    as H by (apply (H (fresh st)); reflexivity).
  induction Hall as [| [env message] attempts (Hg & Hf & Hc & Hne & Ht) _ IH];
    intros w Hw.
  - cbn. rewrite app_nil_r. destruct w; cbn in *; congruence.
  - change (serve ((env, message) :: attempts) w)
      with (serve attempts (serve1 w (env, message))).
    unfold serve1. cbn [fst snd] in *.
    rewrite (onMessage_not_group env message w Hg).
    assert (verifiedUsers (stores w) !! from message = None) as Hv'
      by (rewrite Hw, Hf; exact Hv).
    assert (verificationCodes (stores w) !! from message = Some storedData) as Hp'
      by (rewrite Hw, Hf; exact Hp).
    rewrite (dispatch_code env w message storedData Hv' Hp' Hc).
    rewrite (code_mismatch env w _ _ storedData Hp' Ht Hne).
    cbn [fst]. rewrite (IH (sent w (from message) InvalidCode) Hw).
    cbn. rewrite <- app_assoc, Hf. reflexivity.
Qed.

Lemma wrong_codes_can_be_retried_witness :
  serve [(Scenario.at_time 2000 Scenario.down, Scenario.says "000000");
         (Scenario.at_time 3000 Scenario.down, Scenario.says "482914")]
        (fresh Scenario.pending)
  = {| stores := Scenario.pending;
       outbox := [(Scenario.phone, InvalidCode); (Scenario.phone, InvalidCode)] |}.
Proof.
  apply (wrong_codes_can_be_retried
           [(Scenario.at_time 2000 Scenario.down, Scenario.says "000000");
            (Scenario.at_time 3000 Scenario.down, Scenario.says "482914")]
           Scenario.pending Scenario.phone Scenario.issued).
  - reflexivity.
  - reflexivity.
  - repeat constructor; solve [discriminate | vm_compute; discriminate].
Defined.

(** ** The order command *)

Lemma toLowerCase_app a b :
  Js.toLowerCase (a ++ b) = Js.toLowerCase a ++ Js.toLowerCase b.
Proof.
  induction a as [|c a IH]; [reflexivity |].
  rewrite append_cons. cbn [Js.toLowerCase]. rewrite IH. reflexivity.
Qed.

Lemma append_empty a : a ++ "" = a.
Proof.
  induction a as [|c a IH]; [reflexivity |].
  rewrite append_cons, IH. reflexivity.
Qed.

Lemma split_space_whole a : no_space a = true → Js.split_space a = [a].
Proof.
  induction a as [|c a IH]; cbn; [reflexivity |].
  intros H. apply andb_true_iff in H as [Hc Ha]. apply negb_true_iff in Hc.
  rewrite Hc, (IH Ha). reflexivity.
Qed.

Lemma split_space_app a b :
  no_space a = true →
  Js.split_space (a ++ String " " b) = a :: Js.split_space b.
Proof.
  induction a as [|c a IH]; [reflexivity |].
  rewrite append_cons. cbn [Js.split_space no_space].
  intros H. apply andb_true_iff in H as [Hc Ha]. apply negb_true_iff in Hc.
  rewrite Hc, (IH Ha). reflexivity.
Qed.

Lemma split_space_first a tail :
  no_space a = true →
  tail = "" ∨ Js.first tail = Some " "%char →
  Js.split_space (a ++ tail) !! 0%nat = Some a.
Proof.
  intros Ha [-> | Ht].
  - rewrite append_empty, split_space_whole by exact Ha. reflexivity.
  - destruct tail as [|c t]; [discriminate |]. injection Ht as ->.
    rewrite split_space_app by exact Ha. reflexivity.
Qed.

Lemma lower_char_not_space c : c ≠ " "%char → Js.lower_char c ≠ " "%char.
Proof.
  intros Hc H. apply Hc. clear Hc.
  destruct c as [[] [] [] [] [] [] [] []]; vm_compute in H; congruence.
Qed.

Lemma toLowerCase_no_space s :
  no_space (Js.toLowerCase s) = true → no_space s = true.
Proof.
  induction s as [|c s IH]; cbn; [reflexivity |].
  intros H. apply andb_true_iff in H as [Hc Hs].
  rewrite (IH Hs), andb_true_r.
  apply negb_true_iff. apply negb_true_iff in Hc.
  destruct (Ascii.eqb_spec c " "%char) as [-> | Hne]; [discriminate | reflexivity].
Qed.

(** X11.  The order command, in any letter case, followed by one space and
    an order id: the id requested is the text between the first and the
    second space exactly as typed (it is not lower-cased, and what follows
    the second space is dropped), one request is sent, and the reply is the
    status card of the payload, or 'Could not fetch order details' when the
    request is rejected or answers a non-zero error code.  No store is
    written. *)
Theorem order_id_as_typed env st phone cmd orderId tail :
  Js.toLowerCase cmd = "/order" →
  orderId ≠ "" →
  no_space orderId = true →
  tail = "" ∨ Js.first tail = Some " "%char →
  run env (handleVerifiedUser phone (cmd ++ " " ++ orderId ++ tail)) (fresh st)
  = ({| stores := st;
        outbox := [(phone, order_reply (backend env (GetOrder orderId)))] |},
     Some tt)
  ∧ requests env (handleVerifiedUser phone (cmd ++ " " ++ orderId ++ tail))
             (fresh st)
    = [GetOrder orderId].
Proof.
  intros Hcmd Hid Hns Htail.
  assert (no_space cmd = true) as Hcs
    by (apply toLowerCase_no_space; rewrite Hcmd; reflexivity).
  assert (Js.split_space (cmd ++ " " ++ orderId ++ tail) !! 1%nat = Some orderId)
    as Hsplit.
  { change (cmd ++ " " ++ orderId ++ tail)
      with (cmd ++ String " " (orderId ++ tail)).
    rewrite split_space_app by exact Hcs.
    apply (split_space_first orderId tail Hns Htail). }
  assert (Js.toLowerCase (cmd ++ " " ++ orderId ++ tail)
          = String "/" (String "o" (String "r" (String "d" (String "e"
              (String "r" (String " " (Js.toLowerCase (orderId ++ tail)))))))))
    as Hlow by (rewrite toLowerCase_app, Hcmd; reflexivity).
  unfold handleVerifiedUser. rewrite run_read, requests_read.
  rewrite Hlow, Hsplit. clear Hlow Hsplit.
  set (rest := Js.toLowerCase (orderId ++ tail)).
  replace (String.eqb (String "/" (String "o" (String "r" (String "d"
             (String "e" (String "r" (String " " rest))))))) "/help")
    with false by reflexivity.
  replace (Js.startsWith (String "/" (String "o" (String "r" (String "d"
             (String "e" (String "r" (String " " rest))))))) "/order ")
    with true by (symmetry; destruct rest; reflexivity).
  destruct orderId as [|c orderId]; [congruence |].
  cbn. destruct (backend env (GetOrder (String c orderId))) as [|response];
    [split; reflexivity |].
  cbn. destruct (Js.strict_neq_zero (order_error_code response));
    split; reflexivity.
Qed.

Lemma order_id_as_typed_witness :
  run (Scenario.at_time 5000 Scenario.down)
      (handleVerifiedUser Scenario.phone ("/Order" ++ " " ++ "AbC-12" ++ " now"))
      (fresh Scenario.verified)
  = ({| stores := Scenario.verified;
        outbox := [(Scenario.phone,
                    order_reply (backend (Scenario.at_time 5000 Scenario.down)
                                         (GetOrder "AbC-12")))] |},
     Some tt)
  ∧ requests (Scenario.at_time 5000 Scenario.down)
             (handleVerifiedUser Scenario.phone
                ("/Order" ++ " " ++ "AbC-12" ++ " now"))
             (fresh Scenario.verified)
    = [GetOrder "AbC-12"].
Proof.
  apply (order_id_as_typed (Scenario.at_time 5000 Scenario.down)
           Scenario.verified Scenario.phone "/Order" "AbC-12" " now").
  - reflexivity.
  - discriminate.
  - reflexivity.
  - right. reflexivity.
Defined.

(** ** On the event loop *)

(** X12.  On the event loop the verification is committed when the code
    arrives: the handler of a matching, unexpired code marks the phone
    verified and removes its pending entry before it waits for the ticket
    update, and sends nothing yet.  When the update settles, in whatever
    world the loop is then, the handler only sends its one text (success
    if the update came back, 'Could not complete verification' if it was
    rejected) and, if it came back, removes the ticket entry; it ends
    there. *)
Theorem verification_commits_at_arrival now draw w message storedData ticketId :
  isGroupMsg message = false →
  verifiedUsers (stores w) !! from message = None →
  verificationCodes (stores w) !! from message = Some storedData →
  is_code (text_of message) = true →
  text_of message = Pending.code storedData →
  now - Pending.timestamp storedData ≤ 600000 →
  pendingTickets (stores w) !! Pending.username storedData = Some ticketId →
  Js.truthy ticketId = true →
  ∃ k,
    advance now draw (onMessage message) w
    = (stored w (verified_stores (stores w) (from message) storedData false),
       Vis (Request (PostTicketsUpdate ticketId)) k)
    ∧ ∀ now' draw' w' o,
        advance now' draw' (k o) w'
        = (match o with
           | Rejected => sent w' (from message) CouldNotComplete
           | Resolved _ =>
               sent (stored w' (with_pendingTickets
                                  (delete (Pending.username storedData))
                                  (stores w')))
                    (from message)
                    (VerificationSuccessful (Pending.username storedData))
           end,
           Ret tt).
Proof.
  intros Hg Hv Hp Hc Hm Ht Hpt Htr.
  apply Z.ltb_ge in Ht.
  unfold onMessage, handleMessage, handleVerificationCode, has.
  rewrite Hg. cbn. rewrite Hv, Hp, Hc. cbn. rewrite Hp. cbn.
  rewrite Ht, Hm, String.eqb_refl. cbn.
  rewrite Hpt, Htr. cbn.
  eexists. split; [reflexivity |].
  intros now' draw' w' [|[]]; reflexivity.
Qed.

Lemma verification_commits_at_arrival_witness :
  ∃ k,
    advance 5000 0 (onMessage (Scenario.says "482913")) (fresh Scenario.pending)
    = (stored (fresh Scenario.pending)
              (verified_stores (stores (fresh Scenario.pending))
                 (from (Scenario.says "482913")) Scenario.issued false),
       Vis (Request (PostTicketsUpdate (Js.Str "T1"))) k)
    ∧ ∀ now' draw' w' o,
        advance now' draw' (k o) w'
        = (match o with
           | Rejected => sent w' (from (Scenario.says "482913")) CouldNotComplete
           | Resolved _ =>
               sent (stored w' (with_pendingTickets
                                  (delete (Pending.username Scenario.issued))
                                  (stores w')))
                    (from (Scenario.says "482913"))
                    (VerificationSuccessful (Pending.username Scenario.issued))
           end,
           Ret tt).
Proof.
  apply (verification_commits_at_arrival 5000 0 (fresh Scenario.pending)
           (Scenario.says "482913") Scenario.issued (Js.Str "T1"));
    solve [reflexivity | vm_compute; discriminate].
Defined.

(** The limit of X8 on the event loop.  The phone of the scenario is
    issued its code under ticket T1 and sends it back; while the update of
    T1 is awaited, a second phone submits the same identifier and is
    issued a code under ticket T2; then the update of T1 settles, and its
    handler deletes the entry of alice, which by then holds T2. *)
Example late_update_drops_the_newer_ticket :
  loop_run boot
    [ Arrives 1000 382913 (Scenario.says "alice");
      Settles 1000 382913 0 GetUsers (Resolved [Scenario.alice]);
      Settles 1000 382913 0 (PostTicketsAdd "alice")
              (Resolved (Scenario.ticket "T1"));
      Arrives 2000 0 (Scenario.says "482913");
      Arrives 2500 17 {| from := "another@c.us"; body := Some "alice";
                         isGroupMsg := false |};
      Settles 2500 17 1 GetUsers (Resolved [Scenario.alice]);
      Settles 2500 17 1 (PostTicketsAdd "alice")
              (Resolved (Scenario.ticket "T2"));
      Settles 3000 0 0 (PostTicketsUpdate (Js.Str "T1")) (Resolved tt) ]
    {| world :=
         {| stores :=
              {| verificationCodes :=
                   {[ "another@c.us" :=
                        {| Pending.code := "100017"; Pending.username := "alice";
                           Pending.timestamp := 2500 |} ]};
                 verifiedUsers := {[ Scenario.phone := "alice" ]};
                 pendingTickets := ∅ |};
            outbox :=
              [ (Scenario.phone, VerificationCodeSent "alice" "482913");
                ("another@c.us", VerificationCodeSent "alice" "100017");
                (Scenario.phone, VerificationSuccessful "alice") ] |};
       parked := [] |}.
Proof.
  eapply loop_next; [apply loop_message |].
  eapply loop_next;
    [apply (loop_settled 1000 382913 GetUsers _ _ _ [] []) |].
  eapply loop_next;
    [apply (loop_settled 1000 382913 (PostTicketsAdd "alice") _ _ _ [] []) |].
  eapply loop_next; [apply loop_message |].
  eapply loop_next; [apply loop_message |].
  eapply loop_next;
    [apply (loop_settled 2500 17 GetUsers _ _ _ [_] []) |].
  eapply loop_next;
    [apply (loop_settled 2500 17 (PostTicketsAdd "alice") _ _ _ [_] []) |].
  eapply loop_next;
    [apply (loop_settled 3000 0 (PostTicketsUpdate (Js.Str "T1")) _ _ _ [] []) |].
  apply loop_done.
Qed.

(** *** A verified phone stays verified, whatever the interleaving *)

Section Keeps.

Context {A : Type}.

Lemma keeps_read (k : Stores → Prog A) w :
  keeps_verified (k (stores w)) w → keeps_verified (Vis Read k) w.
Proof.
  intros H. split.
  - intros now draw x w' [= <- <-]. split; [reflexivity | exact H].
  - intros now draw [=].
Qed.

Lemma keeps_write s (k : unit → Prog A) w :
  verifiedUsers (stores w) ⊆ verifiedUsers s →
  keeps_verified (k tt) {| stores := s; outbox := outbox w |} →
  keeps_verified (Vis (Write s) k) w.
Proof.
  intros Hs H. split.
  - intros now draw x w' [= <- <-]. split; [exact Hs | exact H].
  - intros now draw [=].
Qed.

Lemma keeps_now (k : Z → Prog A) w :
  (∀ now, keeps_verified (k now) w) → keeps_verified (Vis DateNow k) w.
Proof.
  intros H. split.
  - intros now draw x w' [= <- <-]. split; [reflexivity | apply H].
  - intros now draw [=].
Qed.

Lemma keeps_random min max (k : Z → Prog A) w :
  (∀ n, keeps_verified (k n) w) → keeps_verified (Vis (RandomInt min max) k) w.
Proof.
  intros H. split.
  - intros now draw x w' [= <- <-]. split; [reflexivity | apply H].
  - intros now draw [=].
Qed.

Lemma keeps_send to text (k : unit → Prog A) w :
  keeps_verified (k tt) (sent w to text) →
  keeps_verified (Vis (SendText to text) k) w.
Proof.
  intros H. split.
  - intros now draw x w' [= <- <-]. split; [reflexivity | exact H].
  - intros now draw [=].
Qed.

Lemma keeps_request c (k : Outcome (Response c) → Prog A) w :
  (∀ o w', keeps_verified (k o) w') → keeps_verified (Vis (Request c) k) w.
Proof.
  intros H. split.
  - intros now draw x w' [=].
  - intros now draw _ x w'. apply H.
Qed.

End Keeps.

Ltac keeps_step :=
  first
    [ exact I
    | apply keeps_read
    | apply keeps_now; intro
    | apply keeps_random; intro
    | apply keeps_send
    | match goal with
      | |- keeps_verified (Vis (Request ?c) ?k) ?w =>
          apply (keeps_request c k w); intros
      end
    | apply keeps_write; [first [reflexivity | assumption] |]
    | match goal with
      | |- context [match ?x with _ => _ end] => destruct x eqn:?
      end ];
  cbn -[keeps_verified].

Lemma username_submission_keeps phone username w :
  keeps_verified (handleUsernameSubmission phone username) w.
Proof.
  unfold handleUsernameSubmission. cbn -[keeps_verified]. repeat keeps_step.
Qed.

Lemma verified_user_keeps phone msg w :
  keeps_verified (handleVerifiedUser phone msg) w.
Proof. unfold handleVerifiedUser. cbn -[keeps_verified]. repeat keeps_step. Qed.

Lemma verification_code_keeps phone code w :
  verifiedUsers (stores w) !! phone = None →
  keeps_verified (handleVerificationCode phone code) w.
Proof.
  intros Hv.
  assert (∀ u, verifiedUsers (stores w) ⊆ <[phone := u]> (verifiedUsers (stores w)))
    as Hs by (intros u; apply insert_subseteq, Hv).
  unfold handleVerificationCode. cbn -[keeps_verified].
  repeat first [keeps_step | apply keeps_write; [cbn; apply Hs |]; cbn -[keeps_verified]].
Qed.

Lemma handleMessage_keeps message w : keeps_verified (handleMessage message) w.
Proof.
  unfold handleMessage, has. apply keeps_read.
  destruct (verifiedUsers (stores w) !! from message) eqn:Hv;
    [apply verified_user_keeps |].
  destruct (verificationCodes (stores w) !! from message); cbn [andb];
    [destruct (is_code (text_of message));
       [apply verification_code_keeps, Hv |] |];
    (destruct (0 <? String.length (text_of message))%nat;
       [apply username_submission_keeps | exact I]).
Qed.

Lemma keeps_try_catch {A} (p h : Prog A) w :
  keeps_verified p w → (∀ w', keeps_verified h w') →
  keeps_verified (try_catch p h) w.
Proof.
  revert w. induction p as [a | | X e k IH]; intros w Hp Hh; cbn.
  - exact I.
  - apply Hh.
  - destruct Hp as [H1 H2]. split.
    + intros now draw x w' E. destruct (H1 now draw x w' E) as [Hs Hk].
      split; [exact Hs | apply IH; assumption].
    + intros now draw E x w'. apply IH; [apply (H2 now draw E) | exact Hh].
Qed.

Lemma onMessage_keeps message w : keeps_verified (onMessage message) w.
Proof.
  unfold onMessage. apply keeps_try_catch.
  - destruct (isGroupMsg message); [exact I | apply handleMessage_keeps].
  - intros w'. apply keeps_send. exact I.
Qed.

Lemma immediate_none {X} (e : Eff X) now draw w now' draw' w' :
  immediate now draw e w = None → immediate now' draw' e w' = None.
Proof. destruct e; cbn; congruence. Qed.

Lemma advance_keeps {A} now draw (p : Prog A) w :
  keeps_verified p w →
  verifiedUsers (stores w) ⊆ verifiedUsers (stores (advance now draw p w).1)
  ∧ ∀ w', keeps_verified (advance now draw p w).2 w'.
Proof.
  revert w. induction p as [a | | X e k IH]; intros w Hp; cbn [advance].
  - split; [reflexivity | intros; exact I].
  - split; [reflexivity | intros; exact I].
  - destruct Hp as [H1 H2].
    destruct (immediate now draw e w) as [[x w1]|] eqn:E.
    + destruct (H1 now draw x w1 E) as [Hs Hk].
      destruct (IH x w1 Hk) as [Hs' Hk'].
      split; [etransitivity; eassumption | exact Hk'].
    + split; [reflexivity |].
      intros w'. cbn [snd keeps_verified]. split.
      * intros now' draw' x w'' E'.
        rewrite (immediate_none e now draw w now' draw' w' E) in E'.
        discriminate.
      * intros now' draw' _ x w''. apply (H2 now draw E).
Qed.

Lemma park_keeps (wp : World * Prog unit) ps :
  (∀ w, keeps_verified wp.2 w) →
  Forall (λ p, ∀ w, keeps_verified p w) ps →
  parked_keep (park wp ps) ∧ world (park wp ps) = wp.1.
Proof.
  intros Hp Hps. unfold park, parked_keep.
  destruct wp as [w' [a | | X e k]]; cbn; split; try assumption; try reflexivity.
  apply Forall_app. split; [assumption |]. constructor; [exact Hp | constructor].
Qed.

Lemma loop_step_keeps l ev l' :
  loop_step l ev l' → parked_keep l →
  parked_keep l'
  ∧ verifiedUsers (stores (world l)) ⊆ verifiedUsers (stores (world l')).
Proof.
  intros [now draw message w ps | now draw c o k w ps1 ps2] Hl;
    unfold parked_keep in Hl; cbn in Hl.
  - destruct (advance_keeps now draw (onMessage message) w
                (onMessage_keeps message w)) as [Hs Hk].
    destruct (park_keeps (advance now draw (onMessage message) w) ps Hk Hl)
      as [Hp Hw].
    split; [exact Hp | rewrite Hw; exact Hs].
  - apply Forall_app in Hl as [Hl1 Hl2].
    apply Forall_cons in Hl2 as [Hk Hl2].
    assert (keeps_verified (k o) w) as Hko
      by (destruct (Hk w) as [_ H2]; apply (H2 0 0 eq_refl)).
    destruct (advance_keeps now draw (k o) w Hko) as [Hs Hk'].
    destruct (park_keeps (advance now draw (k o) w) (ps1 ++ ps2) Hk'
                ltac:(apply Forall_app; split; assumption)) as [Hp Hw].
    split; [exact Hp | rewrite Hw; exact Hs].
Qed.

Lemma loop_run_keeps l evs l' :
  loop_run l evs l' → parked_keep l →
  parked_keep l'
  ∧ verifiedUsers (stores (world l)) ⊆ verifiedUsers (stores (world l')).
Proof.
  induction 1 as [l | l1 ev l2 evs l3 Hstep _ IH]; intros Hl.
  - split; [exact Hl | reflexivity].
  - destruct (loop_step_keeps l1 ev l2 Hstep Hl) as [Hl2 Hs].
    destruct (IH Hl2) as [Hl3 Hs'].
    split; [exact Hl3 | etransitivity; eassumption].
Qed.

(** X13.  On the event loop, with handlers of many messages interleaved in
    any order and requests settling at any time, a phone found in
    [verifiedUsers] keeps its entry, with the same username, for the rest
    of the run. *)
Theorem verified_stays_on_the_loop evs l evs' l' phone u :
  loop_run boot evs l →
  loop_run l evs' l' →
  verifiedUsers (stores (world l)) !! phone = Some u →
  verifiedUsers (stores (world l')) !! phone = Some u.
Proof.
  intros Hrun Hrun' Hu.
  assert (parked_keep boot) as Hboot by constructor.
  destruct (loop_run_keeps boot evs l Hrun Hboot) as [Hl _].
  destruct (loop_run_keeps l evs' l' Hrun' Hl) as [_ Hs].
  eapply lookup_weaken; eassumption.
Qed.

Lemma verified_stays_on_the_loop_witness :
  verifiedUsers
    (stores (world
       {| world :=
            {| stores := Scenario.both;
               outbox :=
                 [ (Scenario.phone, VerificationCodeSent "alice" "482913");
                   (Scenario.phone, VerificationSuccessful "alice");
                   (Scenario.phone, VerificationCodeSent "alice" "100017") ] |};
          parked := [] |}))
    !! Scenario.phone = Some "alice".
Proof.
  refine (verified_stays_on_the_loop until_verified _ after_verified _
            Scenario.phone "alice" _ _ _).
  - unfold until_verified, Scenario.overlapping. cbn [take].
    eapply loop_next; [apply loop_message |].
    eapply loop_next;
      [apply (loop_settled 1000 382913 GetUsers _ _ _ [] []) |].
    eapply loop_next;
      [apply (loop_settled 1000 382913 (PostTicketsAdd "alice") _ _ _ [] []) |].
    eapply loop_next; [apply loop_message |].
    eapply loop_next; [apply loop_message |].
    eapply loop_next;
      [apply (loop_settled 3000 0 (PostTicketsUpdate (Js.Str "T1")) _ _ _ [_] []) |].
    apply loop_done.
  - unfold after_verified, Scenario.overlapping. cbn [drop].
    eapply loop_next;
      [apply (loop_settled 4000 17 GetUsers _ _ _ [] []) |].
    eapply loop_next;
      [apply (loop_settled 4000 17 (PostTicketsAdd "alice") _ _ _ [] []) |].
    apply loop_done.
  - reflexivity.
Defined.

(** ** An identifier that is not listed *)

(** X14.  An identifier that equals neither the username nor the email of
    any listed user, compared exactly (letter case included), is answered
    'Username/email not found': no store is written, so the phone stays
    as it was, and no ticket is opened, the listing being the only
    request. *)
Theorem unknown_identifier_opens_nothing env st message list :
  verifiedUsers st !! from message = None →
  verificationCodes st !! from message = None
  ∨ is_code (text_of message) = false →
  text_of message ≠ "" →
  backend env GetUsers = Resolved list →
  (∀ user, In user list →
           User.username user ≠ text_of message
           ∧ User.email user ≠ text_of message) →
  run env (handleMessage message) (fresh st)
  = ({| stores := st; outbox := [(from message, UsernameNotFound)] |}, Some tt)
  ∧ requests env (handleMessage message) (fresh st) = [GetUsers].
Proof.
  intros Hv Hp He Hl Hnone.
  assert (find (identifies (text_of message)) list = None) as Hf.
  { destruct (find (identifies (text_of message)) list) as [user|] eqn:Hf;
      [| reflexivity].
    apply find_some in Hf as [Hin Hid]. destruct (Hnone user Hin) as [Hu Hm].
    unfold identifies in Hid. apply orb_true_iff in Hid.
    rewrite !String.eqb_eq in Hid. tauto. }
  split.
  - rewrite (dispatch_username env (fresh st) message Hv Hp He).
    apply (submission_not_found env (fresh st) _ _ list Hl Hf).
  - rewrite (requests_username env (fresh st) message Hv Hp He).
    unfold handleUsernameSubmission. cbn. rewrite Hl. cbn. rewrite Hf.
    reflexivity.
Qed.

Lemma unknown_identifier_opens_nothing_witness :
  run (Scenario.at_time 1000
         (Scenario.backend_with [Scenario.alice] (Resolved tt)))
      (handleMessage (Scenario.says "Alice")) (fresh no_stores)
  = ({| stores := no_stores;
        outbox := [(from (Scenario.says "Alice"), UsernameNotFound)] |}, Some tt)
  ∧ requests (Scenario.at_time 1000
                (Scenario.backend_with [Scenario.alice] (Resolved tt)))
             (handleMessage (Scenario.says "Alice")) (fresh no_stores)
    = [GetUsers].
Proof.
  apply (unknown_identifier_opens_nothing
           (Scenario.at_time 1000
              (Scenario.backend_with [Scenario.alice] (Resolved tt)))
           no_stores (Scenario.says "Alice") [Scenario.alice]).
  - reflexivity.
  - left. reflexivity.
  - discriminate.
  - reflexivity.
  - intros user [<- | []]. split; discriminate.
Defined.

(** ** White space around the text *)

(** X15.  White space around the text does not count: a body with any
    white space before and after it is handled exactly as the body
    without it, so a code or a command typed with spaces or a line break
    around it is still a code or a command. *)
Theorem surrounding_space_is_ignored phone group text before after :
  Js.all_space before = true →
  Js.all_space after = true →
  handleMessage {| from := phone; body := Some (before ++ text ++ after);
                   isGroupMsg := group |}
  = handleMessage {| from := phone; body := Some text; isGroupMsg := group |}.
Proof.
  intros Hb Ha. unfold handleMessage, text_of. cbn [from body default from_option id].
  replace (Js.trim (before ++ text ++ after)) with (Js.trim text); [reflexivity |].
  unfold Js.trim at 2. rewrite trimStart_padded by exact Hb.
  symmetry. apply trim_padded_end, Ha.
Qed.

Lemma surrounding_space_is_ignored_witness :
  handleMessage {| from := Scenario.phone;
                   body := Some (Scenario.blank ++ "482913" ++ " ");
                   isGroupMsg := false |}
  = handleMessage {| from := Scenario.phone; body := Some "482913";
                     isGroupMsg := false |}.
Proof.
  apply (surrounding_space_is_ignored Scenario.phone false "482913"
           Scenario.blank " "); reflexivity.
Defined.
